(** * vcf_converter: inspector and validator, embedded and verified

    A shallow embedding of [src/vcf_converter/inspector.py] and
    [src/vcf_converter/validator.py].

    - Python [str] is [string]; a character is a code point below 256.
    - Python [int] is [Z]; [bytes] is [list byte].
    - Exceptions are values of [exn]; a function that can raise returns
      [exn + A] ([inl] is the raised exception, [inr] the returned value).
    - The file system is an explicit record [FileSystem] of the three
      operations the code performs on it: [Path.exists], opening a file
      as text (plain or through gzip) and opening it as bytes.  An open
      text file is the list of what iterating the handle yields: a line,
      or an exception raised by the decoder. *)

From Stdlib Require Import String Ascii List ZArith Lia Bool.
From Stdlib.Strings Require Import Byte.
Import ListNotations.

Open Scope string_scope.
Open Scope Z_scope.

(* ================================================================= *)
(** ** Python string primitives *)

Module PyStr.

(** [len(s)] *)
Definition len (s : string) : Z := Z.of_nat (String.length s).

(** [s[n:]] and [s[:n]] for [0 <= n]. *)
Fixpoint drop (n : nat) (s : string) : string :=
  match n, s with
  | O, _ => s
  | S _, EmptyString => EmptyString
  | S n', String _ s' => drop n' s'
  end.

Fixpoint take (n : nat) (s : string) : string :=
  match n, s with
  | O, _ => EmptyString
  | S _, EmptyString => EmptyString
  | S n', String c s' => String c (take n' s')
  end.

(** [s.startswith(p)] *)
Fixpoint startswith (s p : string) {struct p} : bool :=
  match p, s with
  | EmptyString, _ => true
  | String _ _, EmptyString => false
  | String a p', String b s' => Ascii.eqb a b && startswith s' p'
  end.

(** How Python turns a slice or search bound into a position of
    [0 .. len]: a negative bound counts from the end, and the result is
    clipped. *)
Definition clip (n i : Z) : Z :=
  if i <? 0 then Z.max 0 (i + n) else Z.min i n.

(** [s[a:b]] *)
Definition slice (s : string) (a b : Z) : string :=
  let a' := clip (len s) a in
  let b' := clip (len s) b in
  take (Z.to_nat (b' - a')) (drop (Z.to_nat a') s).

(** The scan behind [str.find]: the least offset [k] with
    [s[k:].startswith(sub)], reported as [i + k]; [-1] when there is
    none. *)
Fixpoint find_at (sub s : string) (i : Z) : Z :=
  if startswith s sub then i
  else match s with
       | EmptyString => -1
       | String _ s' => find_at sub s' (i + 1)
       end.

(** [s.find(sub, start)] *)
Definition find (s sub : string) (start : Z) : Z :=
  let st := if start <? 0 then Z.max 0 (start + len s) else start in
  if len s <? st then -1
  else find_at sub (drop (Z.to_nat st) s) st.

(** [s.rfind(sub)]: the greatest offset, [-1] when there is none. *)
Fixpoint rfind_at (sub s : string) (i : Z) : Z :=
  match s with
  | EmptyString => if startswith s sub then i else -1
  | String _ s' =>
      let r := rfind_at sub s' (i + 1) in
      if 0 <=? r then r else if startswith s sub then i else -1
  end.

Definition rfind (s sub : string) : Z := rfind_at sub s 0.

(** [c.isspace()] for a code point below 256: TAB..CR, FS..US, SPACE,
    NEL and NBSP. *)
Definition isspace (c : ascii) : bool :=
  let n := N_of_ascii c in
  ((9 <=? n) && (n <=? 13) || (28 <=? n) && (n <=? 32)
   || (n =? 133) || (n =? 160))%N.

Fixpoint lstrip (s : string) : string :=
  match s with
  | EmptyString => EmptyString
  | String c s' => if isspace c then lstrip s' else s
  end.

Fixpoint rstrip (s : string) : string :=
  match s with
  | EmptyString => EmptyString
  | String c s' =>
      match rstrip s' with
      | EmptyString => if isspace c then EmptyString else String c EmptyString
      | t => String c t
      end
  end.

(** [s.strip()] *)
Definition strip (s : string) : string := rstrip (lstrip s).

(** [s.split(sep)] for a separator of one character. *)
Fixpoint split (sep : ascii) (s : string) : list string :=
  match s with
  | EmptyString => [EmptyString]
  | String c s' =>
      if Ascii.eqb c sep then EmptyString :: split sep s'
      else match split sep s' with
           | h :: t => String c h :: t
           | [] => [String c EmptyString]
           end
  end.

(** [sep.join(parts)] *)
Definition join (sep : string) (parts : list string) : string :=
  String.concat sep parts.

(** Truth value of a string: [if s:] *)
Definition truthy (s : string) : bool :=
  match s with EmptyString => false | _ => true end.

(** Number of occurrences of a character. *)
Fixpoint count_char (c : ascii) (s : string) : nat :=
  match s with
  | EmptyString => O
  | String a s' => (if Ascii.eqb a c then 1 else 0) + count_char c s'
  end.

(** [c in s] for a character. *)
Definition has_char (c : ascii) (s : string) : bool :=
  negb (Nat.eqb (count_char c s) 0).

(** What iterating a text handle yields for the (newline-translated)
    content [s]: the lines, each with its terminating newline, the last
    one possibly without. *)
Fixpoint lines (s : string) : list string :=
  match s with
  | EmptyString => []
  | String c s' =>
      if Ascii.eqb c "010" then String c EmptyString :: lines s'
      else match lines s' with
           | [] => [String c EmptyString]
           | h :: t => String c h :: t
           end
  end.


(** [sub] does not occur in [s]. *)
Definition absent (sub s : string) : Prop :=
  forall pre post, s <> pre ++ sub ++ post.

End PyStr.

Definition TAB : string := String "009" EmptyString.
Definition NL : string := String "010" EmptyString.

(* ================================================================= *)
(** ** [pathlib.Path] on a POSIX system

    Only what the two modules use: parsing a string into a path,
    [str(path)], [path.name] and [path.suffix] (the definition with
    [rfind], as in CPython up to 3.13). *)

Module PyPath.

(** The components of a path: empty and ["."] components are dropped. *)
Definition parts (p : string) : list string :=
  filter (fun x => negb (String.eqb x "" || String.eqb x "."))
         (PyStr.split "/" p).

(** [posixpath.splitroot]: exactly two leading slashes are kept. *)
Definition root (p : string) : string :=
  if PyStr.startswith p "/" then
    if PyStr.startswith p "//" && negb (PyStr.startswith p "///")
    then "//" else "/"
  else "".

(** [str(Path(p))] *)
Definition str (p : string) : string :=
  let s := root p ++ PyStr.join "/" (parts p) in
  if PyStr.truthy s then s else ".".

(** [Path(p).name] *)
Definition name (p : string) : string := last (parts p) "".

(** [Path(p).suffix] *)
Definition suffix (p : string) : string :=
  let name := name p in
  let i := PyStr.rfind name "." in
  if (0 <? i) && (i <? PyStr.len name - 1)
  then PyStr.slice name i (PyStr.len name)
  else "".

End PyPath.

(* ================================================================= *)
(** ** Exceptions and the file system *)

(** The exceptions that opening or reading a file can raise.
    [OSError] stands for itself and its subclasses other than
    [gzip.BadGzipFile] ([FileNotFoundError], [PermissionError],
    [IsADirectoryError], ...); [EOFError] and [ZlibError] come from a
    truncated or corrupt gzip stream, [UnicodeDecodeError] from the text
    decoder.  The string is [str(exc)]. *)
Inductive exn : Type :=
| OSError (msg : string)
| BadGzipFile (msg : string)
| EOFError (msg : string)
| ZlibError (msg : string)
| UnicodeDecodeError (msg : string).

Definition exn_str (e : exn) : string :=
  match e with
  | OSError m | BadGzipFile m | EOFError m | ZlibError m
  | UnicodeDecodeError m => m
  end.

(** [isinstance(e, (OSError, gzip.BadGzipFile))]; [BadGzipFile] is a
    subclass of [OSError]. *)
Definition is_OSError (e : exn) : bool :=
  match e with
  | OSError _ | BadGzipFile _ => true
  | _ => false
  end.

(** A computation that returns a value or raises. *)
Definition raises (A : Type) : Type := (exn + A)%type.

Definition bind {A B : Type} (m : raises A) (k : A -> raises B) : raises B :=
  match m with
  | inl e => inl e
  | inr a => k a
  end.

Notation "x <- m ;; k" := (bind m (fun x => k))
  (at level 61, m at next level, right associativity).

(** An open text handle: what reading it line by line yields. *)
Definition handle : Type := list (exn + string).

Record FileSystem : Type := {
  (** [Path(p).exists()]: [True], [False], or the [OSError] that
      [pathlib] lets through (up to CPython 3.13 every error of the
      [stat] call other than ENOENT, ENOTDIR, EBADF and ELOOP, such as a
      parent directory that may not be searched or a name that is too
      long) *)
  fs_exists : string -> raises bool;
  (** [open(p)] when the flag is [false], [gzip.open(p, "rt")] when it
      is [true] *)
  fs_open_text : bool -> string -> raises handle;
  (** [open(p, "rb")] followed by reading: the bytes of the file *)
  fs_open_rb : string -> raises (list byte)
}.

(** [fh.readline()]: the next line, [''] at the end of the file. *)
Definition readline (fh : handle) : raises string :=
  match fh with
  | [] => inr ""
  | inl e :: _ => inl e
  | inr l :: _ => inr l
  end.

(** A handle over decodable content. *)
Definition handle_of (content : string) : handle :=
  map inr (PyStr.lines content).

(* ================================================================= *)
(** ** inspector.py *)

Record InspectionResult : Type := {
  file_path : string;
  sample_count : Z;
  variant_count : Z;
  contigs : list string;
  info_fields : list string;
  format_fields : list string;
  header_line_count : Z
}.

(** [InspectionResult(file_path=p)] *)
Definition new_result (p : string) : InspectionResult :=
  {| file_path := p; sample_count := 0; variant_count := 0;
     contigs := []; info_fields := []; format_fields := [];
     header_line_count := 0 |}.

Definition set_sample_count (v : Z) (r : InspectionResult) :=
  {| file_path := file_path r; sample_count := v;
     variant_count := variant_count r; contigs := contigs r;
     info_fields := info_fields r; format_fields := format_fields r;
     header_line_count := header_line_count r |}.

Definition set_variant_count (v : Z) (r : InspectionResult) :=
  {| file_path := file_path r; sample_count := sample_count r;
     variant_count := v; contigs := contigs r;
     info_fields := info_fields r; format_fields := format_fields r;
     header_line_count := header_line_count r |}.

Definition set_header_line_count (v : Z) (r : InspectionResult) :=
  {| file_path := file_path r; sample_count := sample_count r;
     variant_count := variant_count r; contigs := contigs r;
     info_fields := info_fields r; format_fields := format_fields r;
     header_line_count := v |}.

Definition set_contigs (v : list string) (r : InspectionResult) :=
  {| file_path := file_path r; sample_count := sample_count r;
     variant_count := variant_count r; contigs := v;
     info_fields := info_fields r; format_fields := format_fields r;
     header_line_count := header_line_count r |}.

Definition set_info_fields (v : list string) (r : InspectionResult) :=
  {| file_path := file_path r; sample_count := sample_count r;
     variant_count := variant_count r; contigs := contigs r;
     info_fields := v; format_fields := format_fields r;
     header_line_count := header_line_count r |}.

Definition set_format_fields (v : list string) (r : InspectionResult) :=
  {| file_path := file_path r; sample_count := sample_count r;
     variant_count := variant_count r; contigs := contigs r;
     info_fields := info_fields r; format_fields := v;
     header_line_count := header_line_count r |}.

(** [VCFInspector._parse_meta_line]; the result object is threaded. *)
Definition _parse_meta_line (line : string) (result : InspectionResult)
  : InspectionResult :=
  if PyStr.startswith line "##contig=" then
    let start := PyStr.find line "ID=" 0 in
    if 0 <=? start then
      let end_ := PyStr.find line "," start in
      let end_ := if end_ <? 0 then PyStr.find line ">" start else end_ in
      let contig_id := PyStr.slice line (start + 3) end_ in
      if PyStr.truthy contig_id
      then set_contigs (contigs result ++ [contig_id]) result
      else result
    else result
  else if PyStr.startswith line "##INFO=" then
    let start := PyStr.find line "ID=" 0 in
    if 0 <=? start then
      let end_ := PyStr.find line "," start in
      let field_id := PyStr.slice line (start + 3) end_ in
      if PyStr.truthy field_id
      then set_info_fields (info_fields result ++ [field_id]) result
      else result
    else result
  else if PyStr.startswith line "##FORMAT=" then
    let start := PyStr.find line "ID=" 0 in
    if 0 <=? start then
      let end_ := PyStr.find line "," start in
      let field_id := PyStr.slice line (start + 3) end_ in
      if PyStr.truthy field_id
      then set_format_fields (format_fields result ++ [field_id]) result
      else result
    else result
  else result.

(** The body of the [for line in fh] loop of [inspect]. *)
Definition inspect_line (result : InspectionResult) (raw : string)
  : InspectionResult :=
  let line := PyStr.strip raw in
  if PyStr.startswith line "##" then
    let result :=
      set_header_line_count (header_line_count result + 1) result in
    _parse_meta_line line result
  else if PyStr.startswith line "#CHROM" then
    let result :=
      set_header_line_count (header_line_count result + 1) result in
    let cols := PyStr.split "009" line in
    if 9 <? Z.of_nat (length cols)
    then set_sample_count (Z.of_nat (length cols) - 9) result
    else result
  else
    if PyStr.truthy line
    then set_variant_count (variant_count result + 1) result
    else result.

(** The loop itself: an exception raised by the handle leaves the loop
    and the function. *)
Fixpoint inspect_loop (fh : handle) (result : InspectionResult)
  : raises InspectionResult :=
  match fh with
  | [] => inr result
  | inl e :: _ => inl e
  | inr raw :: fh' => inspect_loop fh' (inspect_line result raw)
  end.

(** [VCFInspector.inspect] *)
Definition inspect (fs : FileSystem) (vcf_path : string)
  : raises InspectionResult :=
  let path := vcf_path in
  let result := new_result vcf_path in
  let gz := String.eqb (PyPath.suffix path) ".gz" in
  fh <- fs_open_text fs gz (PyPath.str path) ;;
  inspect_loop fh result.

(* ================================================================= *)
(** ** validator.py *)

Record ValidationReport : Type := {
  files_checked : Z;
  valid : Z;
  invalid : list string;
  warnings : list string
}.

(** [ValidationReport.all_valid] *)
Definition all_valid (r : ValidationReport) : bool :=
  Z.of_nat (length (invalid r)) =? 0.

(** [report.invalid.append(msg)] *)
Definition invalid_append (msg : string) (r : ValidationReport) :=
  {| files_checked := files_checked r; valid := valid r;
     invalid := invalid r ++ [msg]; warnings := warnings r |}.

(** [report.valid = v] *)
Definition set_valid (v : Z) (r : ValidationReport) :=
  {| files_checked := files_checked r; valid := v;
     invalid := invalid r; warnings := warnings r |}.

Definition VCF_HEADER : string := "##fileformat=VCF".
Definition PLINK_BED_MAGIC : list byte := [x6c; x1b; x01].

(** [a == b] on [bytes] *)
Fixpoint bytes_eqb (a b : list byte) : bool :=
  match a, b with
  | [], [] => true
  | x :: a', y :: b' => Byte.eqb x y && bytes_eqb a' b'
  | _, _ => false
  end.

(** [FileValidator.validate_vcf] *)
Definition validate_vcf (fs : FileSystem) (vcf_path : string)
  : raises ValidationReport :=
  let report :=
    {| files_checked := 1; valid := 0; invalid := []; warnings := [] |} in
  let path := vcf_path in
  exists_ <- fs_exists fs (PyPath.str path) ;;
  if negb exists_ then
    inr (invalid_append ("File not found: " ++ vcf_path) report)
  else
    let try : raises ValidationReport :=
      first_line <-
        (if String.eqb (PyPath.suffix path) ".gz" then
           fh <- fs_open_text fs true (PyPath.str path) ;;
           l <- readline fh ;; inr (PyStr.strip l)
         else
           fh <- fs_open_text fs false (PyPath.str path) ;;
           l <- readline fh ;; inr (PyStr.strip l)) ;;
      if PyStr.startswith first_line VCF_HEADER
      then inr (set_valid 1 report)
      else inr (invalid_append ("Missing VCF header: " ++ vcf_path) report)
    in
    match try with
    | inr report => inr report
    | inl exc =>
        if is_OSError exc
        then inr (invalid_append ("Read error: " ++ exn_str exc) report)
        else inl exc
    end.

(** The first loop of [validate_plink_binary]: one violation per file
    that does not exist. *)
Fixpoint missing_loop (fs : FileSystem) (files : list (string * string))
  (report : ValidationReport) : raises ValidationReport :=
  match files with
  | [] => inr report
  | (fp, label) :: files' =>
      exists_ <- fs_exists fs fp ;;
      missing_loop fs files'
        (if negb exists_
         then invalid_append ("Missing ." ++ label ++ " file: " ++ fp) report
         else report)
  end.

(** [FileValidator.validate_plink_binary] *)
Definition validate_plink_binary (fs : FileSystem) (bfile_prefix : string)
  : raises ValidationReport :=
  let prefix := PyPath.str bfile_prefix in
  let bed := PyPath.str (prefix ++ ".bed") in
  let bim := PyPath.str (prefix ++ ".bim") in
  let fam := PyPath.str (prefix ++ ".fam") in
  let report :=
    {| files_checked := 3; valid := 0; invalid := []; warnings := [] |} in
  report <-
    missing_loop fs [(bed, "bed"); (bim, "bim"); (fam, "fam")] report ;;
  bed_exists <- fs_exists fs bed ;;
  report <-
    (if bed_exists then
       content <- fs_open_rb fs bed ;;
       let magic := firstn 3 content in
       if bytes_eqb magic PLINK_BED_MAGIC
       then inr (set_valid (valid report + 1) report)
       else inr (invalid_append ("Invalid .bed magic bytes: " ++ bed) report)
     else inr report) ;;
  bim_exists <- fs_exists fs bim ;;
  let report :=
    if bim_exists then set_valid (valid report + 1) report
    else report in
  fam_exists <- fs_exists fs fam ;;
  let report :=
    if fam_exists then set_valid (valid report + 1) report
    else report in
  inr report.

(** The two statements of [validate_batch]'s loop body that fold a
    sub-report into the combined one. *)
Definition absorb (combined sub : ValidationReport) : ValidationReport :=
  {| files_checked := files_checked combined + files_checked sub;
     valid := valid combined + valid sub;
     invalid := invalid combined ++ invalid sub;
     warnings := warnings combined ++ warnings sub |}.

(** The branch of [validate_batch] that picks the check for a path. *)
Definition validate_one (fs : FileSystem) (p : string)
  : raises ValidationReport :=
  let path := p in
  if String.eqb (PyPath.suffix path) ".vcf"
     || String.eqb (PyPath.suffix path) ".gz"
  then validate_vcf fs p
  else validate_plink_binary fs p.

Fixpoint validate_batch_loop (fs : FileSystem) (paths : list string)
  (combined : ValidationReport) : raises ValidationReport :=
  match paths with
  | [] => inr combined
  | p :: paths' =>
      sub <- validate_one fs p ;;
      validate_batch_loop fs paths' (absorb combined sub)
  end.

(** [FileValidator.validate_batch] *)
Definition validate_batch (fs : FileSystem) (paths : list string)
  : raises ValidationReport :=
  let combined :=
    {| files_checked := 0; valid := 0; invalid := []; warnings := [] |} in
  validate_batch_loop fs paths combined.

(* ================================================================= *)
(** ** The inspector: line classes *)

Module Inspector.
Import PyStr.

(** The classes of a raw line, as the loop body tests them on the
    trimmed line. *)
Definition is_meta (raw : string) : bool := startswith (strip raw) "##".

Definition is_column_header (raw : string) : bool :=
  startswith (strip raw) "#CHROM".

Definition is_blank (raw : string) : bool := negb (truthy (strip raw)).

Definition is_data (raw : string) : bool :=
  negb (is_meta raw) && negb (is_column_header raw) && negb (is_blank raw).

(** Number of tab-separated columns of the trimmed line. *)
Definition column_count (raw : string) : Z :=
  Z.of_nat (length (split "009" (strip raw))).

(** Number of lines of a class. *)
Definition count (f : string -> bool) (lines : list string) : Z :=
  Z.of_nat (length (filter f lines)).

(** The whole loop over a handle that never raises. *)
Definition inspect_lines (p : string) (lines : list string)
  : InspectionResult :=
  fold_left inspect_line lines (new_result p).

(** The gzip flag and the path that [inspect] hands to the opener. *)
Definition opens_gz (p : string) : bool := String.eqb (PyPath.suffix p) ".gz".

(** The identifiers one raw line contributes, per list. *)
Definition line_contigs (raw : string) : list string :=
  contigs (inspect_line (new_result "") raw).

Definition line_info_fields (raw : string) : list string :=
  info_fields (inspect_line (new_result "") raw).

Definition line_format_fields (raw : string) : list string :=
  format_fields (inspect_line (new_result "") raw).

(** Splitting the branches of [_parse_meta_line]. *)
Ltac split_ifs :=
  repeat match goal with
         | |- context [if ?b then _ else _] => destruct b
         end.

(** The three structured meta-lines that [_parse_meta_line] handles. *)
Inductive tag : Type := ContigTag | InfoTag | FormatTag.

Definition tag_prefix (t : tag) : string :=
  match t with
  | ContigTag => "##contig="
  | InfoTag => "##INFO="
  | FormatTag => "##FORMAT="
  end.

(** [result.<list of the tag>.append(v)] *)
Definition append_id (t : tag) (v : string) (r : InspectionResult)
  : InspectionResult :=
  match t with
  | ContigTag => set_contigs (contigs r ++ [v]) r
  | InfoTag => set_info_fields (info_fields r ++ [v]) r
  | FormatTag => set_format_fields (format_fields r ++ [v]) r
  end.

End Inspector.

(* ================================================================= *)
(** ** The rules of the specification, in its own words

    These definitions follow the text of the specification, not the
    code; the theorems below compare the code with them. *)

Module Spec.
Import PyStr Inspector.



(** "The lines strictly after the column-header line". *)
Fixpoint after_column_header (lines : list string) : list string :=
  match lines with
  | [] => []
  | l :: rest =>
      if is_column_header l then rest else after_column_header rest
  end.

(** "The number of non-blank lines strictly after the column-header
    line". *)
Definition variant_count (lines : list string) : Z :=
  count (fun l => negb (is_blank l)) (after_column_header lines).

(** "(count of meta-lines) + (1 if column-header line present else 0)" *)
Definition header_line_count (lines : list string) : Z :=
  count is_meta lines + (if existsb is_column_header lines then 1 else 0).

(** "[max(0, column_count_in_header_line − 9)]" *)
Definition sample_count (hdr : string) : Z :=
  Z.max 0 (column_count hdr - 9).

(** The text before the first [c], the whole text when there is none. *)
Fixpoint before_char (c : ascii) (s : string) : string :=
  match s with
  | EmptyString => EmptyString
  | String x s' =>
      if Ascii.eqb x c then EmptyString else String x (before_char c s')
  end.

(** The text after the first [c], nothing when there is none. *)
Fixpoint after_char (c : ascii) (s : string) : string :=
  match s with
  | EmptyString => EmptyString
  | String x s' => if Ascii.eqb x c then s' else after_char c s'
  end.

(** "A structured meta-line of the form [##TAG=<key1=val1,key2=val2,...>]":
    its keys are what stands before the [=] of each item between the
    [<] and the closing [>]. *)
Definition keys (line : string) : list string :=
  let body := after_char "<" line in
  let body := take (Nat.pred (String.length body)) body in
  map (before_char "=") (split "," body).

(** "A structured meta-line with no [ID=] key". *)
Definition has_id_key (line : string) : bool :=
  existsb (String.eqb "ID") (keys line).

End Spec.

(* ================================================================= *)
(** ** Concrete files *)

Module Examples.

(** A line of tab-separated columns, with its newline. *)
Definition row (cols : list string) : string := PyStr.join TAB cols ++ NL.

(** A file system in which every path exists and opens as text with the
    given content; nothing opens as bytes. *)
Definition text_fs (content : string) : FileSystem :=
  {| fs_exists := fun _ => inr true;
     fs_open_text := fun _ _ => inr (handle_of content);
     fs_open_rb := fun p => inl (OSError ("cannot read " ++ p)) |}.

Definition fixed_columns : list string :=
  ["#CHROM"; "POS"; "ID"; "REF"; "ALT"; "QUAL"; "FILTER"; "INFO"; "FORMAT"].

(** Scenario A of the specification. *)
Definition scenario_a : string :=
  "##fileformat=VCFv4.2" ++ NL ++ row ["#CHROM"; "POS"; "ID"]
  ++ row ["1"; "100"; "rs1"].

(** Scenario B: twelve columns and one data line. *)
Definition scenario_b : string :=
  "##fileformat=VCFv4.2" ++ NL
  ++ row (fixed_columns ++ ["S1"; "S2"; "S3"])
  ++ row ["1"; "100"; "rs1"; "A"; "G"; "."; "."; "."; "GT"; "0/1"; "0/0"; "1/1"].

(** The file of [test_basic_inspection], the descriptions without their
    quotes. *)
Definition basic : string :=
  "##fileformat=VCFv4.2" ++ NL
  ++ "##INFO=<ID=AC,Number=A,Type=Integer,Description=Allele count>" ++ NL
  ++ "##FORMAT=<ID=GT,Number=1,Type=String,Description=Genotype>" ++ NL
  ++ "##contig=<ID=1,length=249250621>" ++ NL
  ++ row (fixed_columns ++ ["SAMPLE1"])
  ++ row ["1"; "100"; "rs1"; "A"; "G"; "."; "PASS"; "AC=1"; "GT"; "0/1"]
  ++ row ["1"; "200"; "rs2"; "C"; "T"; "."; "PASS"; "AC=2"; "GT"; "1/1"].

(** A data line ahead of the column-header line. *)
Definition data_before_header : string :=
  row ["1"; "100"; "rs1"] ++ row ["#CHROM"; "POS"; "ID"].

(** Two VCF files pasted one after the other: two column-header lines,
    the first with one sample column, the second with none. *)
Definition two_headers : string :=
  "##fileformat=VCFv4.2" ++ NL
  ++ row (fixed_columns ++ ["S1"])
  ++ row ["1"; "100"; "rs1"; "A"; "G"; "."; "."; "."; "GT"; "0/1"]
  ++ row fixed_columns.





Definition taxid_line : string := "##contig=<taxID=9606,length=5>".

(** A file system whose only file cannot be opened. *)
Definition unopenable_fs : FileSystem :=
  {| fs_exists := fun _ => inr true;
     fs_open_text := fun _ p =>
       inl (OSError ("[Errno 13] Permission denied: '" ++ p ++ "'"));
     fs_open_rb := fun p =>
       inl (OSError ("[Errno 13] Permission denied: '" ++ p ++ "'")) |}.

(** A file whose third line cannot be decoded. *)
Definition undecodable_fs : FileSystem :=
  {| fs_exists := fun _ => inr true;
     fs_open_text := fun _ _ =>
       inr [inr ("##fileformat=VCFv4.2" ++ NL);
            inr (row ["#CHROM"; "POS"; "ID"]);
            inl (UnicodeDecodeError "'utf-8' codec can't decode byte 0xff");
            inr (row ["1"; "100"; "rs1"])];
     fs_open_rb := fun p => inl (OSError ("cannot read " ++ p)) |}.

(** A fileset whose [.bed] is a directory: it exists, and opening it
    fails. *)
Definition bed_directory_fs : FileSystem :=
  {| fs_exists := fun _ => inr true;
     fs_open_text := fun _ _ => inr [];
     fs_open_rb := fun p =>
       if String.eqb p "study.bed"
       then inl (OSError "[Errno 21] Is a directory: 'study.bed'")
       else inr [] |}.

(** A gzip file cut short: it opens, and the first read fails. *)
Definition truncated_gz_fs : FileSystem :=
  {| fs_exists := fun _ => inr true;
     fs_open_text := fun _ _ =>
       inr [inl (EOFError
         "Compressed file ended before the end-of-stream marker was reached")];
     fs_open_rb := fun _ => inr [] |}.

(** Scenario C: a complete fileset with the right signature. *)
Definition fileset_fs : FileSystem :=
  {| fs_exists := fun p =>
       inr (String.eqb p "study.bed" || String.eqb p "study.bim"
            || String.eqb p "study.fam" || String.eqb p "calls.vcf");
     fs_open_text := fun _ p =>
       if String.eqb p "calls.vcf" then inr (handle_of scenario_a)
       else inl (OSError ("[Errno 2] No such file or directory: '" ++ p ++ "'"));
     fs_open_rb := fun p =>
       if String.eqb p "study.bed" then inr [x6c; x1b; x01; x00; x00]
       else inl (OSError ("[Errno 2] No such file or directory: '" ++ p ++ "'")) |}.

End Examples.

(* ================================================================= *)
(** ** The validator: names for what its reports hold *)

Module Validator.

(** The three files of a PLINK binary fileset, as
    [validate_plink_binary] derives them from the prefix. *)
Definition bed_path (prefix : string) : string :=
  PyPath.str (PyPath.str prefix ++ ".bed").

Definition bim_path (prefix : string) : string :=
  PyPath.str (PyPath.str prefix ++ ".bim").

Definition fam_path (prefix : string) : string :=
  PyPath.str (PyPath.str prefix ++ ".fam").

(** The file opens as bytes and its first three bytes are the magic
    signature. *)
Definition has_magic (fs : FileSystem) (bed : string) : bool :=
  match fs_open_rb fs bed with
  | inr content => bytes_eqb (firstn 3 content) PLINK_BED_MAGIC
  | inl _ => false
  end.

(** [Path(p).exists()] returned [True]. *)
Definition present (fs : FileSystem) (p : string) : bool :=
  match fs_exists fs p with
  | inr b => b
  | inl _ => false
  end.

(** The violation that a missing file adds. *)
Definition missing (fs : FileSystem) (fp label : string) : list string :=
  if present fs fp then []
  else ["Missing ." ++ label ++ " file: " ++ fp].

(** The report of [validate_plink_binary] when it returns one. *)
Definition plink_report (fs : FileSystem) (prefix : string)
  : ValidationReport :=
  let bed := bed_path prefix in
  let bim := bim_path prefix in
  let fam := fam_path prefix in
  {| files_checked := 3;
     valid := Z.b2z (present fs bed && has_magic fs bed)
              + Z.b2z (present fs bim) + Z.b2z (present fs fam);
     invalid := missing fs bed "bed" ++ missing fs bim "bim"
                ++ missing fs fam "fam"
                ++ (if present fs bed && negb (has_magic fs bed)
                    then ["Invalid .bed magic bytes: " ++ bed] else []);
     warnings := [] |}.

(** The extension test of [validate_batch]. *)
Definition is_text_suffix (p : string) : bool :=
  String.eqb (PyPath.suffix p) ".vcf" || String.eqb (PyPath.suffix p) ".gz".

(** [ValidationReport()] *)
Definition empty_report : ValidationReport :=
  {| files_checked := 0; valid := 0; invalid := []; warnings := [] |}.

Definition sumZ (l : list Z) : Z := fold_right Z.add 0 l.

(** Sums of the counts and concatenations of the sequences of a list
    of reports. *)
Definition aggregate (subs : list ValidationReport) : ValidationReport :=
  {| files_checked := sumZ (map files_checked subs);
     valid := sumZ (map valid subs);
     invalid := concat (map invalid subs);
     warnings := concat (map warnings subs) |}.

(** The check that [validate_batch] runs on the path [p] returns the
    report [sub]: the text check when the suffix is [.vcf] or [.gz],
    the fileset check on [p] as a prefix otherwise. *)
Definition dispatched (fs : FileSystem) (p : string)
  (sub : ValidationReport) : Prop :=
  if is_text_suffix p then validate_vcf fs p = inr sub
  else validate_plink_binary fs p = inr sub.

(** The three causes that [validate_vcf] reports. *)
Inductive cause : Type := NotFound | SignatureMismatch | ReadError.

Definition cause_prefix (c : cause) : string :=
  match c with
  | NotFound => "File not found: "
  | SignatureMismatch => "Missing VCF header: "
  | ReadError => "Read error: "
  end.

End Validator.

(* ================================================================= *)
(** ** The inspector: further line classes *)

Module InspectorLines.
Import PyStr Inspector.

(** A column-header line with more than nine columns: the only lines
    that assign [sample_count]. *)
Definition is_wide_header (raw : string) : bool :=
  is_column_header raw && (9 <? column_count raw).

(** The value that the last wide header of the file assigns, [0] when
    the file has none. *)
Definition last_sample_count (lines : list string) : Z :=
  match List.find is_wide_header (rev lines) with
  | Some hdr => column_count hdr - 9
  | None => 0
  end.

(** The trimmed line begins with the prefix of the tag. *)
Definition has_tag (t : tag) (raw : string) : bool :=
  startswith (strip raw) (tag_prefix t).

(** The list of a result that belongs to a tag. *)
Definition ids_of (t : tag) (r : InspectionResult) : list string :=
  match t with
  | ContigTag => contigs r
  | InfoTag => info_fields r
  | FormatTag => format_fields r
  end.




End InspectorLines.

(* ================================================================= *)
(** ** converter.py *)

Module Converter.

Record ConversionResult : Type := {
  input_path : string;
  output_prefix : string;
  input_format : string;
  output_format : string;
  sample_count : Z;
  variant_count : Z;
  success : bool;
  message : string
}.

Definition set_sample_count (v : Z) (r : ConversionResult) :=
  {| input_path := input_path r; output_prefix := output_prefix r;
     input_format := input_format r; output_format := output_format r;
     sample_count := v; variant_count := variant_count r;
     success := success r; message := message r |}.

Definition set_variant_count (v : Z) (r : ConversionResult) :=
  {| input_path := input_path r; output_prefix := output_prefix r;
     input_format := input_format r; output_format := output_format r;
     sample_count := sample_count r; variant_count := v;
     success := success r; message := message r |}.

Definition set_success (v : bool) (r : ConversionResult) :=
  {| input_path := input_path r; output_prefix := output_prefix r;
     input_format := input_format r; output_format := output_format r;
     sample_count := sample_count r; variant_count := variant_count r;
     success := v; message := message r |}.

Definition set_message (v : string) (r : ConversionResult) :=
  {| input_path := input_path r; output_prefix := output_prefix r;
     input_format := input_format r; output_format := output_format r;
     sample_count := sample_count r; variant_count := variant_count r;
     success := success r; message := v |}.

(** The attributes of a [FormatConverter]. *)
Record FormatConverter : Type := {
  plink_binary : string;
  bcftools_binary : string
}.

(** [if extra_args:] for [List[str] | None]. *)
Definition args_truthy (extra_args : option (list string)) : bool :=
  match extra_args with
  | Some (_ :: _) => true
  | _ => false
  end.

(** [cmd.extend(extra_args)] *)
Definition extend (cmd : list string) (extra_args : option (list string))
  : list string :=
  match extra_args with
  | Some l => cmd ++ l
  | None => cmd
  end.

(** [FormatConverter._build_vcf_to_plink_cmd] *)
Definition _build_vcf_to_plink_cmd (self : FormatConverter)
  (vcf_path output_prefix : string) (extra_args : option (list string))
  : list string :=
  let cmd :=
    [plink_binary self; "--vcf"; vcf_path; "--make-bed";
     "--out"; output_prefix; "--allow-extra-chr"] in
  if args_truthy extra_args then extend cmd extra_args else cmd.

(** [FormatConverter._build_plink_to_vcf_cmd] *)
Definition _build_plink_to_vcf_cmd (self : FormatConverter)
  (bfile_prefix output_path : string) (extra_args : option (list string))
  : list string :=
  let cmd :=
    [plink_binary self; "--bfile"; bfile_prefix; "--recode"; "vcf";
     "--out"; output_path; "--allow-extra-chr"] in
  if args_truthy extra_args then extend cmd extra_args else cmd.

(** The loop of the two counting functions. *)
Fixpoint count_loop (fh : handle) (count : Z) : raises Z :=
  match fh with
  | [] => inr count
  | inl e :: _ => inl e
  | inr line :: fh' =>
      count_loop fh'
        (if PyStr.truthy (PyStr.strip line) then count + 1 else count)
  end.

(** [FormatConverter._count_fam_samples] *)
Definition _count_fam_samples (fs : FileSystem) (fam_path : string)
  : raises Z :=
  let path := fam_path in
  exists_ <- fs_exists fs (PyPath.str path) ;;
  if negb exists_ then inr 0
  else
    let count := 0 in
    fh <- fs_open_text fs false (PyPath.str path) ;;
    count_loop fh count.

(** [FormatConverter._count_bim_variants] *)
Definition _count_bim_variants (fs : FileSystem) (bim_path : string)
  : raises Z :=
  let path := bim_path in
  exists_ <- fs_exists fs (PyPath.str path) ;;
  if negb exists_ then inr 0
  else
    let count := 0 in
    fh <- fs_open_text fs false (PyPath.str path) ;;
    count_loop fh count.

(** What [subprocess.run(cmd, check=True, ...)] can raise:
    [CalledProcessError] for a non-zero exit status,
    [FileNotFoundError] when the program is not found, or something
    else. *)
Inductive run_exn : Type :=
| CalledProcessError (msg : string)
| FileNotFoundError (msg : string)
| OtherRunError (msg : string).

(** An exception inside a conversion: of the subprocess, or of the file
    layer while the output files are counted. *)
Inductive conv_exn : Type :=
| RunExn (e : run_exn)
| FileExn (e : exn).

(** The world outside a conversion.  [run cmd fs] is the subprocess: it
    raises, or completes and leaves a file system.  The file layer does
    not record which of its [OSError]s are [FileNotFoundError]s;
    [isinstance_FileNotFoundError] tells. *)
Record World : Type := {
  run : list string -> FileSystem -> run_exn + FileSystem;
  isinstance_FileNotFoundError : exn -> bool
}.

(** [str(exc)] *)
Definition conv_exn_str (e : conv_exn) : string :=
  match e with
  | RunExn (CalledProcessError m) | RunExn (FileNotFoundError m)
  | RunExn (OtherRunError m) => m
  | FileExn e => exn_str e
  end.

(** [isinstance(exc, (subprocess.CalledProcessError, FileNotFoundError))] *)
Definition caught (w : World) (e : conv_exn) : bool :=
  match e with
  | RunExn (CalledProcessError _) | RunExn (FileNotFoundError _) => true
  | RunExn (OtherRunError _) => false
  | FileExn e => isinstance_FileNotFoundError w e
  end.

(** The [except] clause of both conversions: a caught exception leaves
    its text in the result, which is returned as it is by then. *)
Definition handle_exc (w : World) (result : ConversionResult)
  (exc : conv_exn) : conv_exn + ConversionResult :=
  if caught w exc then inr (set_message (conv_exn_str exc) result)
  else inl exc.

(** [FormatConverter.vcf_to_plink] *)
Definition vcf_to_plink (w : World) (self : FormatConverter)
  (fs : FileSystem) (vcf_path output_prefix : string)
  (extra_args : option (list string)) : conv_exn + ConversionResult :=
  let cmd := _build_vcf_to_plink_cmd self vcf_path output_prefix extra_args in
  let result :=
    {| input_path := vcf_path; output_prefix := output_prefix;
       input_format := "vcf"; output_format := "plink_binary";
       sample_count := 0; variant_count := 0;
       success := false; message := "" |} in
  match run w cmd fs with
  | inl e => handle_exc w result (RunExn e)
  | inr fs' =>
      let result := set_success true result in
      match _count_fam_samples fs' (output_prefix ++ ".fam") with
      | inl e => handle_exc w result (FileExn e)
      | inr n =>
          let result := set_sample_count n result in
          match _count_bim_variants fs' (output_prefix ++ ".bim") with
          | inl e => handle_exc w result (FileExn e)
          | inr m => inr (set_variant_count m result)
          end
      end
  end.

(** [FormatConverter.plink_to_vcf] *)
Definition plink_to_vcf (w : World) (self : FormatConverter)
  (fs : FileSystem) (bfile_prefix output_path : string)
  (extra_args : option (list string)) : conv_exn + ConversionResult :=
  let cmd :=
    _build_plink_to_vcf_cmd self bfile_prefix output_path extra_args in
  let result :=
    {| input_path := bfile_prefix; output_prefix := output_path;
       input_format := "plink_binary"; output_format := "vcf";
       sample_count := 0; variant_count := 0;
       success := false; message := "" |} in
  match run w cmd fs with
  | inl e => handle_exc w result (RunExn e)
  | inr _ => inr (set_success true result)
  end.

(** The command line that a conversion runs: the fixed words, then the
    extra arguments. *)
Definition extras (extra_args : option (list string)) : list string :=
  match extra_args with
  | Some l => l
  | None => []
  end.

End Converter.

(* ================================================================= *)
(** ** More concrete files and worlds *)

Module MoreExamples.
Import Examples.

(** A file system in which every path exists and reading it as text
    yields the given lines. *)
Definition lines_fs (ls : list string) : FileSystem :=
  {| fs_exists := fun _ => inr true;
     fs_open_text := fun _ _ => inr (map inr ls);
     fs_open_rb := fun p => inl (OSError ("cannot read " ++ p)) |}.

(** Scenario A with indented lines, trailing blanks and carriage
    returns, and blank lines in between. *)
Definition untidy_a : list string :=
  ["  ##fileformat=VCFv4.2  " ++ NL;
   NL;
   row ["#CHROM"; "POS"; "ID"];
   "   " ++ TAB ++ NL;
   TAB ++ PyStr.join TAB ["1"; "100"; "rs1"] ++ String "013" NL].

(** The first half of a file: header and one variant; and a second
    half with contigs and two variants but no column header. *)
Definition first_half : list string :=
  ["##fileformat=VCFv4.2" ++ NL;
   "##contig=<ID=1,length=249250621>" ++ NL;
   row (fixed_columns ++ ["S1"; "S2"]);
   row ["1"; "100"; "rs1"; "A"; "G"; "."; "."; "."; "GT"; "0/1"; "0/0"]].

Definition second_half : list string :=
  ["##contig=<ID=2>" ++ NL;
   "##contig=<ID=1,length=249250621>" ++ NL;
   row ["2"; "100"; "rs2"; "A"; "G"; "."; "."; "."; "GT"; "0/1"; "0/0"];
   row ["2"; "200"; "rs3"; "A"; "G"; "."; "."; "."; "GT"; "0/1"; "0/0"]].

(** A [.fam] file of two samples and a blank line. *)
Definition two_samples : string :=
  "FAM1 IND1 0 0 1 -9" ++ NL ++ NL ++ "FAM2 IND2 0 0 2 -9" ++ NL.

(** A file system with a VCF file that is not there, one that is
    unreadable and one without the signature. *)
Definition mixed_fs : FileSystem :=
  {| fs_exists := fun p => inr (negb (String.eqb p "gone.vcf"));
     fs_open_text := fun _ p =>
       if String.eqb p "locked.vcf"
       then inl (OSError "[Errno 13] Permission denied: 'locked.vcf'")
       else if String.eqb p "notes.vcf"
       then inr (handle_of ("not a vcf file" ++ NL))
       else inr (handle_of scenario_a);
     fs_open_rb := fun p =>
       if String.eqb p "study.bed" then inr [x6c; x1b; x01]
       else if String.eqb p "bad.bed" then inr [x00; x1b; x01]
       else inl (OSError "[Errno 21] Is a directory") |}.

(** What PLINK leaves behind after a conversion to [out]: a [.fam] file
    of two samples and a [.bim] file of three variants. *)
Definition after_plink : FileSystem :=
  {| fs_exists := fun p =>
       inr (String.eqb p "out.fam" || String.eqb p "out.bim");
     fs_open_text := fun _ p =>
       if String.eqb p "out.fam" then inr (handle_of two_samples)
       else inr (handle_of (row ["1"; "rs1"; "0"; "100"; "A"; "G"]
                            ++ row ["1"; "rs2"; "0"; "200"; "C"; "T"]
                            ++ row ["1"; "rs3"; "0"; "300"; "G"; "A"]));
     fs_open_rb := fun _ => inr [] |}.

(** A world in which the subprocess succeeds and leaves [after_plink]. *)
Definition plink_works : Converter.World :=
  {| Converter.run := fun _ _ => inr after_plink;
     Converter.isinstance_FileNotFoundError := fun _ => false |}.

(** A world in which PLINK exits with status 2. *)
Definition plink_fails : Converter.World :=
  {| Converter.run := fun _ _ =>
       inl (Converter.CalledProcessError
              "Command 'plink' returned non-zero exit status 2.");
     Converter.isinstance_FileNotFoundError := fun _ => false |}.

(** A fileset whose [.bed] file holds the signature and may not be
    read. *)
Definition unreadable_bed_fs : FileSystem :=
  {| fs_exists := fun _ => inr true;
     fs_open_text := fun _ _ => inr [];
     fs_open_rb := fun p =>
       if String.eqb p "study.bed"
       then inl (OSError "[Errno 13] Permission denied: 'study.bed'")
       else inr [] |}.

(** A file system in which a name is too long to be looked up. *)
Definition long_name_fs : FileSystem :=
  {| fs_exists := fun p =>
       if Nat.ltb 255 (String.length p)
       then inl (OSError "[Errno 36] File name too long")
       else inr false;
     fs_open_text := fun _ _ =>
       inl (OSError "[Errno 2] No such file or directory");
     fs_open_rb := fun _ =>
       inl (OSError "[Errno 2] No such file or directory") |}.

Definition long_name : string :=
  String.concat "" (List.repeat "aaaaaaaa" 32) ++ ".vcf".

Definition default_converter : Converter.FormatConverter :=
  {| Converter.plink_binary := "plink";
     Converter.bcftools_binary := "bcftools" |}.

End MoreExamples.

(* ================================================================= *)
(** ** The validator: further names *)

Module ValidatorLines.

(** What the [try] block of [validate_vcf] reads: the first line of the
    file, trimmed; the file is opened through gzip when the suffix of
    the path is [.gz]. *)
Definition first_line (fs : FileSystem) (p : string) : raises string :=
  fh <- fs_open_text fs (String.eqb (PyPath.suffix p) ".gz") (PyPath.str p) ;;
  l <- readline fh ;;
  inr (PyStr.strip l).

(** Every file checked is accounted for: it is valid, or it has its
    violation; no warning is ever issued. *)
Definition accounted (r : ValidationReport) : Prop :=
  valid r + Z.of_nat (length (invalid r)) = files_checked r /\
  0 <= valid r /\ warnings r = [].

(** The report of [validate_vcf] for one violation. *)
Definition vcf_violation (msg : string) : ValidationReport :=
  {| files_checked := 1; valid := 0; invalid := [msg]; warnings := [] |}.

End ValidatorLines.

(* ================================================================= *)
(** ** Facts about the string primitives *)

Module PyStrFacts.
Import PyStr.

Lemma app_nil_r (s : string) : s ++ "" = s.
Proof. induction s as [|c s IH]; simpl; [reflexivity | now rewrite IH]. Qed.

Lemma app_assoc (a b c : string) : (a ++ b) ++ c = a ++ b ++ c.
Proof. induction a as [|x a IH]; simpl; [reflexivity | now rewrite IH]. Qed.

Lemma length_app (a b : string) :
  String.length (a ++ b) = (String.length a + String.length b)%nat.
Proof. induction a as [|x a IH]; simpl; [reflexivity | now rewrite IH]. Qed.



Lemma drop_drop (n m : nat) (s : string) :
  drop n (drop m s) = drop (m + n) s.
Proof.
  revert s; induction m as [|m IH]; intros s; simpl.
  - reflexivity.
  - destruct s as [|c s]; simpl.
    + now destruct n.
    + apply IH.
Qed.

Lemma take_drop (n : nat) (s : string) : take n s ++ drop n s = s.
Proof.
  revert s; induction n as [|n IH]; intros [|c s]; simpl; try reflexivity.
  now rewrite IH.
Qed.

Lemma length_take_le (n : nat) (s : string) :
  (n <= String.length s)%nat -> String.length (take n s) = n.
Proof.
  revert s; induction n as [|n IH]; intros [|c s]; simpl; intros H;
    try reflexivity; try lia.
  rewrite IH; lia.
Qed.

(** [startswith] is the prefix relation. *)
Lemma startswith_app (p r : string) : startswith (p ++ r) p = true.
Proof.
  induction p as [|c p IH]; simpl; [reflexivity |].
  now rewrite Ascii.eqb_refl, IH.
Qed.

Lemma startswith_inv (s p : string) :
  startswith s p = true -> exists r, s = p ++ r.
Proof.
  revert s; induction p as [|c p IH]; intros s H; simpl in *.
  - now exists s.
  - destruct s as [|d s]; [discriminate |].
    apply andb_true_iff in H as [Hc Hs].
    apply Ascii.eqb_eq in Hc; subst d.
    destruct (IH _ Hs) as [r ->]. now exists r.
Qed.

Lemma startswith_iff (s p : string) :
  startswith s p = true <-> exists r, s = p ++ r.
Proof.
  split; [apply startswith_inv | intros [r ->]; apply startswith_app].
Qed.



Lemma find_at_absent (sub : string) :
  forall s i, absent sub s -> find_at sub s i = -1.
Proof.
  induction s as [|c s IH]; intros i Habs; cbn [find_at].
  - destruct (startswith "" sub) eqn:Hst; [| reflexivity].
    apply startswith_inv in Hst as [r Hr].
    exfalso. apply (Habs "" r). exact Hr.
  - destruct (startswith (String c s) sub) eqn:Hst.
    + apply startswith_inv in Hst as [r Hr].
      exfalso. apply (Habs "" r). exact Hr.
    + apply IH. intros pre post E.
      apply (Habs (String c pre) post). simpl. now rewrite E.
Qed.

(** The result of the scan is [-1] or a position where [sub] occurs. *)
Lemma find_at_found (sub : string) :
  forall s i r, find_at sub s i = r -> r <> -1 -> 0 <= i ->
    exists pre post, s = pre ++ sub ++ post /\
                     r = i + Z.of_nat (String.length pre).
Proof.
  induction s as [|c s IH]; intros i r H Hr Hi; cbn [find_at] in H.
  - destruct (startswith "" sub) eqn:Hst; [| congruence].
    apply startswith_inv in Hst as [t Ht].
    exists "", t. simpl. split; [exact Ht | lia].
  - destruct (startswith (String c s) sub) eqn:Hst.
    + apply startswith_inv in Hst as [t Ht].
      exists "", t. simpl. split; [exact Ht | lia].
    + destruct (IH (i + 1) r H Hr ltac:(lia)) as (pre & post & E & Er).
      exists (String c pre), post. simpl. split; [now rewrite E | lia].
Qed.




(** [len(s.split(sep))] is one more than the number of separators. *)
Lemma length_split (sep : ascii) (s : string) :
  length (split sep s) = S (count_char sep s).
Proof.
  induction s as [|c s IH]; simpl; [reflexivity |].
  destruct (Ascii.eqb c sep); simpl.
  - now rewrite IH.
  - destruct (split sep s) as [|h t]; simpl in *; [discriminate | exact IH].
Qed.

(** [find] from the start and from the end of a known prefix. *)
Lemma len_nonneg (s : string) : 0 <= len s.
Proof. unfold len. lia. Qed.

Lemma len_app (a b : string) : len (a ++ b) = len a + len b.
Proof. unfold len. rewrite length_app. lia. Qed.

Lemma find_zero (s sub : string) : find s sub 0 = find_at sub s 0.
Proof.
  unfold find. cbv zeta. change (0 <? 0) with false. cbv iota.
  pose proof (len_nonneg s).
  rewrite (proj2 (Z.ltb_ge (len s) 0)) by lia. reflexivity.
Qed.



Lemma find_absent (sub s : string) : absent sub s -> find s sub 0 = -1.
Proof. intros H. rewrite find_zero. now apply find_at_absent. Qed.

(** The scan never reports a position past an occurrence. *)
Lemma find_at_le (sub : string) :
  forall pre post i,
    i <= find_at sub (pre ++ sub ++ post) i <= i + len pre.
Proof.
  induction pre as [|c pre IH]; intros post i.
  - simpl (_ ++ _).
    assert (Hst : startswith (sub ++ post) sub = true)
      by apply startswith_app.
    destruct (sub ++ post); cbn [find_at]; rewrite Hst;
      unfold len; simpl; lia.
  - simpl (_ ++ _). cbn [find_at].
    destruct (startswith (String c (pre ++ sub ++ post)) sub).
    + pose proof (len_nonneg (String c pre)). lia.
    + specialize (IH post (i + 1)).
      unfold len in *. simpl String.length. lia.
Qed.


(** A way to establish [absent] by running the scan. *)
Lemma absent_by_scan (sub s : string) :
  find_at sub s 0 = -1 -> absent sub s.
Proof.
  intros Hf pre post E.
  pose proof (find_at_le sub pre post 0) as Hle.
  rewrite <- E, Hf in Hle. lia.
Qed.





End PyStrFacts.

(* ================================================================= *)
(** ** The inspector: what a pass over a file computes *)

Module InspectorFacts.
Import PyStr PyStrFacts Inspector.

Lemma count_cons f x l : count f (x :: l) = Z.b2z (f x) + count f l.
Proof. unfold count. simpl. destruct (f x); simpl length; simpl Z.b2z; lia. Qed.

Lemma count_app f l1 l2 :
  count f (l1 ++ l2)%list = count f l1 + count f l2.
Proof. unfold count. rewrite filter_app, List.length_app. lia. Qed.

Lemma count_nonneg f l : 0 <= count f l.
Proof. unfold count. lia. Qed.

Lemma count_zero f l :
  (forall x, In x l -> f x = false) -> count f l = 0.
Proof.
  induction l as [|x l IH]; intros H; [reflexivity |].
  rewrite count_cons, (H x (or_introl eq_refl)), IH; [reflexivity |].
  intros y Hy. apply H. now right.
Qed.

Lemma count_ext f g l :
  (forall x, In x l -> f x = g x) -> count f l = count g l.
Proof.
  induction l as [|x l IH]; intros H; [reflexivity |].
  rewrite !count_cons, (H x (or_introl eq_refl)), IH; [reflexivity |].
  intros y Hy. apply H. now right.
Qed.

(** A column-header line is not a meta-line: the second character of
    ["#CHROM"] is not ['#']. *)
Lemma header_not_meta raw : is_column_header raw = true -> is_meta raw = false.
Proof.
  unfold is_column_header, is_meta.
  intros [r ->]%startswith_inv. reflexivity.
Qed.

Lemma meta_not_blank raw : is_meta raw = true -> is_blank raw = false.
Proof.
  unfold is_meta, is_blank. intros [r ->]%startswith_inv. reflexivity.
Qed.

Lemma header_not_blank raw :
  is_column_header raw = true -> is_blank raw = false.
Proof.
  unfold is_column_header, is_blank. intros [r ->]%startswith_inv.
  reflexivity.
Qed.

(** [_parse_meta_line] touches nothing but the three lists. *)
Lemma parse_meta_line_counts line r :
  file_path (_parse_meta_line line r) = file_path r /\
  sample_count (_parse_meta_line line r) = sample_count r /\
  variant_count (_parse_meta_line line r) = variant_count r /\
  header_line_count (_parse_meta_line line r) = header_line_count r.
Proof. unfold _parse_meta_line. cbv zeta. split_ifs; now repeat split. Qed.

(** What one line adds to a list does not depend on the result so far:
    it is what the line adds to a fresh result. *)
Lemma parse_meta_line_lists line r :
  contigs (_parse_meta_line line r)
  = (contigs r ++ contigs (_parse_meta_line line (new_result "")))%list /\
  info_fields (_parse_meta_line line r)
  = (info_fields r
     ++ info_fields (_parse_meta_line line (new_result "")))%list /\
  format_fields (_parse_meta_line line r)
  = (format_fields r
     ++ format_fields (_parse_meta_line line (new_result "")))%list.
Proof.
  unfold _parse_meta_line. cbv zeta.
  split_ifs; simpl; rewrite ?List.app_nil_r; now repeat split.
Qed.

(** One iteration of the loop, field by field. *)
Lemma inspect_line_header_line_count r raw :
  header_line_count (inspect_line r raw)
  = header_line_count r + Z.b2z (is_meta raw) + Z.b2z (is_column_header raw).
Proof.
  unfold inspect_line. cbv zeta.
  destruct (startswith (strip raw) "##") eqn:Hm.
  - destruct (parse_meta_line_counts (strip raw)
               (set_header_line_count (header_line_count r + 1) r))
      as (_ & _ & _ & ->).
    unfold is_meta, is_column_header. rewrite Hm.
    apply startswith_inv in Hm as [t ->]. simpl. lia.
  - unfold is_meta, is_column_header. rewrite Hm.
    destruct (startswith (strip raw) "#CHROM"); split_ifs; simpl; lia.
Qed.

Lemma inspect_line_variant_count r raw :
  variant_count (inspect_line r raw) = variant_count r + Z.b2z (is_data raw).
Proof.
  unfold inspect_line, is_data, is_meta, is_column_header, is_blank. cbv zeta.
  destruct (startswith (strip raw) "##") eqn:Hm.
  - destruct (parse_meta_line_counts (strip raw)
               (set_header_line_count (header_line_count r + 1) r))
      as (_ & _ & -> & _). simpl. lia.
  - destruct (startswith (strip raw) "#CHROM"); split_ifs; simpl; lia.
Qed.

Lemma inspect_line_sample_count r raw :
  sample_count (inspect_line r raw)
  = if is_column_header raw && (9 <? column_count raw)
    then column_count raw - 9 else sample_count r.
Proof.
  unfold inspect_line, is_column_header, column_count. cbv zeta.
  destruct (startswith (strip raw) "##") eqn:Hm.
  - destruct (parse_meta_line_counts (strip raw)
               (set_header_line_count (header_line_count r + 1) r))
      as (_ & -> & _ & _).
    apply startswith_inv in Hm as [t ->]. reflexivity.
  - destruct (startswith (strip raw) "#CHROM"); cbn [andb];
      split_ifs; reflexivity.
Qed.

Lemma inspect_line_lists r raw :
  contigs (inspect_line r raw) = (contigs r ++ line_contigs raw)%list /\
  info_fields (inspect_line r raw)
  = (info_fields r ++ line_info_fields raw)%list /\
  format_fields (inspect_line r raw)
  = (format_fields r ++ line_format_fields raw)%list.
Proof.
  unfold line_contigs, line_info_fields, line_format_fields, inspect_line.
  cbv zeta.
  destruct (startswith (strip raw) "##").
  - destruct (parse_meta_line_lists (strip raw)
               (set_header_line_count (header_line_count r + 1) r))
      as (-> & -> & ->).
    destruct (parse_meta_line_lists (strip raw)
               (set_header_line_count
                  (header_line_count (new_result "") + 1) (new_result "")))
      as (-> & -> & ->).
    simpl. now repeat split.
  - split_ifs; simpl; rewrite ?List.app_nil_r; now repeat split.
Qed.

(** The loop over a handle that never raises is a left fold. *)
Lemma inspect_loop_lines lines :
  forall r, inspect_loop (map inr lines) r = inr (fold_left inspect_line lines r).
Proof. induction lines as [|l lines IH]; intros r; simpl; [reflexivity | apply IH]. Qed.

(** The loop stops at the first exception the handle raises. *)
Lemma inspect_loop_raises pre e rest :
  forall r, inspect_loop (map inr pre ++ inl e :: rest)%list r = inl e.
Proof. induction pre as [|l pre IH]; intros r; simpl; [reflexivity | apply IH]. Qed.

(** A loop that returns has read a handle that never raised. *)
Lemma inspect_loop_returns fh :
  forall r r', inspect_loop fh r = inr r' ->
    exists lines, fh = map inr lines /\ r' = fold_left inspect_line lines r.
Proof.
  induction fh as [|[e|l] fh IH]; intros r r' H; simpl in H.
  - exists []. injection H as <-. split; reflexivity.
  - discriminate.
  - destruct (IH _ _ H) as (lines & -> & ->).
    exists (l :: lines). split; reflexivity.
Qed.

(** The fields after a whole pass. *)
Lemma fold_header_line_count lines :
  forall r, header_line_count (fold_left inspect_line lines r)
            = header_line_count r + count is_meta lines
              + count is_column_header lines.
Proof.
  induction lines as [|l lines IH]; intros r; simpl fold_left.
  - unfold count. simpl. lia.
  - rewrite IH, inspect_line_header_line_count, !count_cons. lia.
Qed.

Lemma fold_variant_count lines :
  forall r, variant_count (fold_left inspect_line lines r)
            = variant_count r + count is_data lines.
Proof.
  induction lines as [|l lines IH]; intros r; simpl fold_left.
  - unfold count. simpl. lia.
  - rewrite IH, inspect_line_variant_count, count_cons. lia.
Qed.

Lemma fold_lists lines :
  forall r,
    contigs (fold_left inspect_line lines r)
    = (contigs r ++ flat_map line_contigs lines)%list /\
    info_fields (fold_left inspect_line lines r)
    = (info_fields r ++ flat_map line_info_fields lines)%list /\
    format_fields (fold_left inspect_line lines r)
    = (format_fields r ++ flat_map line_format_fields lines)%list.
Proof.
  induction lines as [|l lines IH]; intros r; simpl fold_left; simpl flat_map.
  - rewrite !List.app_nil_r. now repeat split.
  - destruct (IH (inspect_line r l)) as (-> & -> & ->).
    destruct (inspect_line_lists r l) as (-> & -> & ->).
    rewrite <- !List.app_assoc. now repeat split.
Qed.

(** Lines that are not column headers leave [sample_count] alone. *)
Lemma fold_sample_count_no_header lines :
  (forall l, In l lines -> is_column_header l = false) ->
  forall r, sample_count (fold_left inspect_line lines r) = sample_count r.
Proof.
  induction lines as [|l lines IH]; intros H r; simpl fold_left.
  - reflexivity.
  - rewrite IH by (intros x Hx; apply H; now right).
    rewrite inspect_line_sample_count, (H l (or_introl eq_refl)).
    reflexivity.
Qed.

(** [inspect] on a file that opens and never raises while read. *)
Lemma inspect_returns fs p lines :
  fs_open_text fs (opens_gz p) (PyPath.str p) = inr (map inr lines) ->
  inspect fs p = inr (inspect_lines p lines).
Proof.
  intros H. unfold inspect, inspect_lines. cbv zeta.
  fold (opens_gz p). rewrite H. simpl bind.
  apply inspect_loop_lines.
Qed.

Lemma existsb_count f (l : list string) :
  existsb f l = (0 <? count f l).
Proof.
  induction l as [|x l IH]; [reflexivity |].
  rewrite count_cons. simpl existsb. rewrite IH.
  pose proof (count_nonneg f l).
  destruct (f x); simpl Z.b2z; simpl orb.
  - symmetry. apply Z.ltb_lt. lia.
  - reflexivity.
Qed.

(* ----------------------------------------------------------------- *)
(** *** Claims about [inspect] *)

(** C2, as the code has it.  [variant_count] is the number of non-blank
    lines, anywhere in the file, that begin with neither [##] nor
    [#CHROM]; when everything before the column-header line is a
    meta-line or blank and nothing after it begins with [##] or
    [#CHROM], that is the number of non-blank lines strictly after the
    column-header line (zero included). *)
Theorem variant_count_counts_data_lines fs p lines :
  fs_open_text fs (opens_gz p) (PyPath.str p) = inr (map inr lines) ->
  exists r,
    inspect fs p = inr r /\
    variant_count r = count is_data lines /\
    forall pre hdr post,
      lines = (pre ++ hdr :: post)%list ->
      is_column_header hdr = true ->
      (forall l, In l pre -> is_meta l = true \/ is_blank l = true) ->
      (forall l, In l post -> is_meta l = false /\ is_column_header l = false) ->
      variant_count r = count (fun l => negb (is_blank l)) post.
Proof.
  intros Hopen. exists (inspect_lines p lines).
  split; [now apply inspect_returns |].
  unfold inspect_lines. rewrite fold_variant_count. simpl.
  split; [reflexivity |].
  intros pre hdr post -> Hhdr Hpre Hpost.
  rewrite count_app, count_cons.
  rewrite (count_zero is_data pre).
  - unfold is_data at 1. rewrite Hhdr, andb_false_r. simpl.
    apply count_ext. intros l Hl. unfold is_data.
    destruct (Hpost l Hl) as [-> ->]. reflexivity.
  - intros l Hl. unfold is_data.
    destruct (Hpre l Hl) as [Hm | Hb].
    + now rewrite Hm.
    + rewrite Hb. simpl. apply andb_false_r.
Qed.

Lemma variant_count_counts_data_lines_witness :
  exists r,
    inspect (Examples.text_fs Examples.scenario_b) "calls.vcf" = inr r /\
    variant_count r = 1.
Proof.
  destruct (variant_count_counts_data_lines
              (Examples.text_fs Examples.scenario_b) "calls.vcf"
              (lines Examples.scenario_b) eq_refl)
    as (r & Hr & _ & Hafter).
  exists r. split; [exact Hr |].
  rewrite (Hafter
             ["##fileformat=VCFv4.2" ++ NL]
             (Examples.row (Examples.fixed_columns ++ ["S1"; "S2"; "S3"]))
             [Examples.row ["1"; "100"; "rs1"; "A"; "G"; "."; "."; ".";
                            "GT"; "0/1"; "0/0"; "1/1"]]).
  - reflexivity.
  - reflexivity.
  - reflexivity.
  - intros l [<- | []]. left. reflexivity.
  - intros l [<- | []]. split; reflexivity.
Defined.

(** C2 as stated fails: a data line ahead of the column-header line is
    counted, although no line follows the header. *)
Lemma variant_count_not_only_after_header :
  exists r,
    inspect (Examples.text_fs Examples.data_before_header) "calls.vcf" = inr r /\
    variant_count r = 1 /\
    Spec.variant_count (lines Examples.data_before_header) = 0 /\
    variant_count r <> Spec.variant_count (lines Examples.data_before_header).
Proof.
  eexists. split; [reflexivity |]. vm_compute.
  repeat split; discriminate.
Qed.

(** C3, as the code has it.  [header_line_count] is the number of
    meta-lines plus the number of column-header lines; with at most one
    column-header line in the file that is (count of meta-lines) + (1 if
    a column-header line is present else 0). *)
Theorem header_line_count_invariant fs p lines :
  fs_open_text fs (opens_gz p) (PyPath.str p) = inr (map inr lines) ->
  exists r,
    inspect fs p = inr r /\
    header_line_count r = count is_meta lines + count is_column_header lines /\
    (count is_column_header lines <= 1 ->
     header_line_count r = Spec.header_line_count lines).
Proof.
  intros Hopen. exists (inspect_lines p lines).
  split; [now apply inspect_returns |].
  unfold inspect_lines. rewrite fold_header_line_count. simpl.
  split; [reflexivity |].
  intros Hle. unfold Spec.header_line_count.
  rewrite existsb_count.
  pose proof (count_nonneg is_column_header lines).
  destruct (0 <? count is_column_header lines) eqn:E.
  - apply Z.ltb_lt in E. lia.
  - apply Z.ltb_ge in E. lia.
Qed.

Lemma header_line_count_invariant_witness :
  exists r,
    inspect (Examples.text_fs Examples.scenario_a) "calls.vcf" = inr r /\
    header_line_count r = 2.
Proof.
  destruct (header_line_count_invariant
              (Examples.text_fs Examples.scenario_a) "calls.vcf"
              (lines Examples.scenario_a) eq_refl)
    as (r & Hr & _ & Hone).
  exists r. split; [exact Hr |].
  rewrite Hone; [reflexivity |].
  vm_compute. discriminate.
Defined.

(** C3 as stated fails on a file with two column-header lines: both are
    counted. *)
Lemma header_line_count_two_headers :
  exists r,
    inspect (Examples.text_fs Examples.two_headers) "calls.vcf" = inr r /\
    header_line_count r = 3 /\
    Spec.header_line_count (lines Examples.two_headers) = 2 /\
    header_line_count r <> Spec.header_line_count (lines Examples.two_headers).
Proof.
  eexists. split; [reflexivity |]. vm_compute.
  repeat split; discriminate.
Qed.

(** C6, as the code has it.  A column-header line with [n] columns sets
    [sample_count] to [n - 9] when [n > 9] and leaves it as it was
    otherwise; for the only column-header line of a file the result is
    [max(0, n - 9)], so [0] for exactly nine columns. *)
Theorem sample_count_from_column_header fs p lines :
  fs_open_text fs (opens_gz p) (PyPath.str p) = inr (map inr lines) ->
  exists r,
    inspect fs p = inr r /\
    (forall pre hdr post,
        lines = (pre ++ hdr :: post)%list ->
        is_column_header hdr = true ->
        (forall l, In l pre -> is_column_header l = false) ->
        (forall l, In l post -> is_column_header l = false) ->
        sample_count r = Spec.sample_count hdr /\
        (column_count hdr = 9 -> sample_count r = 0)) /\
    (forall r0 hdr,
        is_column_header hdr = true ->
        sample_count (inspect_line r0 hdr)
        = if 9 <? column_count hdr then column_count hdr - 9
          else sample_count r0).
Proof.
  intros Hopen. exists (inspect_lines p lines).
  split; [now apply inspect_returns |]. split.
  - intros pre hdr post -> Hhdr Hpre Hpost.
    assert (E : sample_count (inspect_lines p (pre ++ hdr :: post))
                = Spec.sample_count hdr).
    { unfold inspect_lines. rewrite fold_left_app. simpl fold_left.
      rewrite (fold_sample_count_no_header post Hpost).
      rewrite inspect_line_sample_count, Hhdr. cbn [andb].
      rewrite (fold_sample_count_no_header pre Hpre). simpl sample_count.
      unfold Spec.sample_count.
      destruct (9 <? column_count hdr) eqn:E.
      - apply Z.ltb_lt in E. lia.
      - apply Z.ltb_ge in E. lia. }
    split; [exact E |].
    intros H9. rewrite E. unfold Spec.sample_count. rewrite H9. reflexivity.
  - intros r0 hdr Hhdr.
    rewrite inspect_line_sample_count, Hhdr. reflexivity.
Qed.

Lemma sample_count_from_column_header_witness :
  exists r,
    inspect (Examples.text_fs Examples.scenario_b) "calls.vcf" = inr r /\
    sample_count r = 3.
Proof.
  destruct (sample_count_from_column_header
              (Examples.text_fs Examples.scenario_b) "calls.vcf"
              (lines Examples.scenario_b) eq_refl)
    as (r & Hr & Honly & _).
  exists r. split; [exact Hr |].
  destruct (Honly
              ["##fileformat=VCFv4.2" ++ NL]
              (Examples.row (Examples.fixed_columns ++ ["S1"; "S2"; "S3"]))
              [Examples.row ["1"; "100"; "rs1"; "A"; "G"; "."; "."; ".";
                             "GT"; "0/1"; "0/0"; "1/1"]])
    as [E _].
  - reflexivity.
  - reflexivity.
  - intros l [<- | []]. reflexivity.
  - intros l [<- | []]. reflexivity.
  - rewrite E. reflexivity.
Defined.

(** C6 as stated fails on a later column-header line: the second header
    of the file has exactly nine columns, yet [sample_count] keeps the
    value that the first header set. *)
Lemma sample_count_kept_by_narrow_header :
  exists r hdr,
    inspect (Examples.text_fs Examples.two_headers) "calls.vcf" = inr r /\
    nth_error (lines Examples.two_headers) 3 = Some hdr /\
    is_column_header hdr = true /\
    column_count hdr = 9 /\
    sample_count r = 1 /\
    sample_count r <> Spec.sample_count hdr.
Proof.
  do 2 eexists. split; [reflexivity |]. split; [reflexivity |].
  vm_compute. repeat split; discriminate.
Qed.

(** C8.  [inspect] propagates the exception of an open that fails and
    the first exception raised while the handle is read, whatever was
    read before; it returns a summary only when the file opened and
    every line was read, and then the summary is that of the whole
    file. *)
Theorem inspect_all_or_nothing fs p :
  (forall e,
      fs_open_text fs (opens_gz p) (PyPath.str p) = inl e ->
      inspect fs p = inl e) /\
  (forall pre e rest,
      fs_open_text fs (opens_gz p) (PyPath.str p)
      = inr (map inr pre ++ inl e :: rest)%list ->
      inspect fs p = inl e) /\
  (forall r,
      inspect fs p = inr r ->
      exists lines,
        fs_open_text fs (opens_gz p) (PyPath.str p) = inr (map inr lines) /\
        r = inspect_lines p lines).
Proof.
  unfold inspect. cbv zeta. fold (opens_gz p).
  repeat split.
  - intros e ->. reflexivity.
  - intros pre e rest ->. simpl bind. apply inspect_loop_raises.
  - intros r H.
    destruct (fs_open_text fs (opens_gz p) (PyPath.str p)) as [e|fh];
      simpl in H; [discriminate |].
    destruct (inspect_loop_returns _ _ _ H) as (lines & -> & ->).
    exists lines. split; reflexivity.
Qed.

Lemma inspect_all_or_nothing_witness :
  inspect Examples.unopenable_fs "calls.vcf"
  = inl (OSError "[Errno 13] Permission denied: 'calls.vcf'") /\
  inspect Examples.undecodable_fs "calls.vcf"
  = inl (UnicodeDecodeError "'utf-8' codec can't decode byte 0xff").
Proof.
  split.
  - apply (proj1 (inspect_all_or_nothing Examples.unopenable_fs "calls.vcf")).
    reflexivity.
  - apply (proj1 (proj2 (inspect_all_or_nothing
                           Examples.undecodable_fs "calls.vcf"))
             ["##fileformat=VCFv4.2" ++ NL;
              Examples.row ["#CHROM"; "POS"; "ID"]]
             (UnicodeDecodeError "'utf-8' codec can't decode byte 0xff")
             [inr (Examples.row ["1"; "100"; "rs1"])]).
    reflexivity.
Defined.

(* ----------------------------------------------------------------- *)
(** *** Claims about [_parse_meta_line] *)

(** The branch of [_parse_meta_line] that a tagged line takes. *)
Lemma parse_meta_line_branch t line r :
  startswith line (tag_prefix t) = true ->
  _parse_meta_line line r
  = let start := find line "ID=" 0 in
    if 0 <=? start then
      let end_ := find line "," start in
      let end_ :=
        match t with
        | ContigTag => if end_ <? 0 then find line ">" start else end_
        | _ => end_
        end in
      let v := slice line (start + 3) end_ in
      if truthy v then append_id t v r else r
    else r.
Proof.
  intros [tl ->]%startswith_inv. unfold _parse_meta_line.
  destruct t; reflexivity.
Qed.

Section AroundId.
Variables pre v : string.





End AroundId.


(** A line without [ID=] is left alone. *)
Lemma parse_meta_line_no_id line r :
  absent "ID=" line -> _parse_meta_line line r = r.
Proof.
  intros H. unfold _parse_meta_line. cbv zeta.
  rewrite (find_absent _ _ H). change (0 <=? -1) with false.
  split_ifs; reflexivity.
Qed.

(** A line with another tag is left alone. *)
Lemma parse_meta_line_other_tag line r :
  startswith line "##contig=" = false ->
  startswith line "##INFO=" = false ->
  startswith line "##FORMAT=" = false ->
  _parse_meta_line line r = r.
Proof. intros H1 H2 H3. unfold _parse_meta_line. now rewrite H1, H2, H3. Qed.

End InspectorFacts.

(* ================================================================= *)
(** ** The validator: what its reports hold *)

Module ValidatorFacts.
Import Validator.

Lemma bytes_eqb_eq (a b : list byte) : bytes_eqb a b = true <-> a = b.
Proof.
  revert b; induction a as [|x a IH]; intros [|y b]; simpl;
    try (split; [discriminate | discriminate]); [tauto |].
  rewrite andb_true_iff, IH. split.
  - intros [Hxy ->]. now rewrite (Byte.byte_dec_bl _ _ Hxy).
  - intros [= -> ->]. split; [now apply Byte.byte_dec_lb | reflexivity].
Qed.

Lemma present_true fs p : present fs p = true <-> fs_exists fs p = inr true.
Proof.
  unfold present. destruct (fs_exists fs p) as [e|[]];
    split; congruence.
Qed.

(** [validate_plink_binary] raises what the first failing existence
    check raises (bed, bim, fam, in that order) or what opening an
    existing [.bed] file raises; otherwise it returns [plink_report]. *)
Lemma validate_plink_binary_eq fs prefix :
  validate_plink_binary fs prefix
  = match fs_exists fs (bed_path prefix) with
    | inl e => inl e
    | inr bed_exists =>
        match fs_exists fs (bim_path prefix) with
        | inl e => inl e
        | inr _ =>
            match fs_exists fs (fam_path prefix) with
            | inl e => inl e
            | inr _ =>
                if bed_exists then
                  match fs_open_rb fs (bed_path prefix) with
                  | inl e => inl e
                  | inr _ => inr (plink_report fs prefix)
                  end
                else inr (plink_report fs prefix)
            end
        end
    end.
Proof.
  unfold validate_plink_binary, plink_report, has_magic, missing, present.
  cbv zeta. fold (bed_path prefix) (bim_path prefix) (fam_path prefix).
  cbn [missing_loop].
  destruct (fs_exists fs (bed_path prefix)) as [e|eb]; [reflexivity |].
  cbn [bind].
  destruct (fs_exists fs (bim_path prefix)) as [e|em]; [reflexivity |].
  cbn [bind].
  destruct (fs_exists fs (fam_path prefix)) as [e|ef]; [reflexivity |].
  cbn [bind].
  destruct (fs_open_rb fs (bed_path prefix)) as [e|content];
    [| cbn [bind];
       remember (bytes_eqb (firstn 3 content) PLINK_BED_MAGIC) as m;
       destruct m];
    destruct eb, em, ef; reflexivity.
Qed.

(** A report that [validate_plink_binary] returns is [plink_report],
    and the three existence checks returned. *)
Lemma validate_plink_binary_returns fs prefix r :
  validate_plink_binary fs prefix = inr r ->
  r = plink_report fs prefix /\
  (exists eb em ef,
      fs_exists fs (bed_path prefix) = inr eb /\
      fs_exists fs (bim_path prefix) = inr em /\
      fs_exists fs (fam_path prefix) = inr ef) /\
  (present fs (bed_path prefix) = true ->
   exists content, fs_open_rb fs (bed_path prefix) = inr content).
Proof.
  rewrite validate_plink_binary_eq. unfold present.
  destruct (fs_exists fs (bed_path prefix)) as [e|eb]; [discriminate |].
  destruct (fs_exists fs (bim_path prefix)) as [e|em]; [discriminate |].
  destruct (fs_exists fs (fam_path prefix)) as [e|ef]; [discriminate |].
  destruct eb.
  - destruct (fs_open_rb fs (bed_path prefix)) as [e|content];
      [discriminate |].
    intros [= <-]. split; [reflexivity |].
    split; [now exists true, em, ef |]. intros _. now exists content.
  - intros [= <-]. split; [reflexivity |].
    split; [now exists false, em, ef | discriminate].
Qed.

Lemma all_valid_plink_report fs prefix :
  all_valid (plink_report fs prefix) = true <->
  present fs (bed_path prefix) = true /\
  present fs (bim_path prefix) = true /\
  present fs (fam_path prefix) = true /\
  has_magic fs (bed_path prefix) = true.
Proof.
  unfold all_valid, plink_report, missing. cbv zeta. simpl invalid.
  destruct (present fs (bed_path prefix)),
           (present fs (bim_path prefix)),
           (present fs (fam_path prefix)),
           (has_magic fs (bed_path prefix));
    simpl; intuition discriminate.
Qed.

Lemma has_magic_iff fs bed :
  has_magic fs bed = true <->
  exists content,
    fs_open_rb fs bed = inr content /\ firstn 3 content = PLINK_BED_MAGIC.
Proof.
  unfold has_magic. destruct (fs_open_rb fs bed) as [e|content].
  - split; [discriminate | intros (c & [=] & _)].
  - rewrite bytes_eqb_eq. split.
    + intros H. now exists content.
    + intros (c & [= ->] & H). exact H.
Qed.

(** What a report of [validate_plink_binary] holds, when one is
    returned: it is [all_valid] if and only if the three files exist
    and the first three bytes read from the [.bed] file are [6c 1b 01];
    [files_checked] is 3; the violations are one per missing file, in
    the order bed, bim, fam, then one for a [.bed] file that exists
    without the signature; [valid] counts the [.bed] file that exists
    with the signature and each of the other two that exists. *)
Lemma plink_binary_report_when_returned fs prefix r :
  validate_plink_binary fs prefix = inr r ->
  (all_valid r = true <->
   (fs_exists fs (bed_path prefix) = inr true /\
    fs_exists fs (bim_path prefix) = inr true /\
    fs_exists fs (fam_path prefix) = inr true /\
    exists content,
      fs_open_rb fs (bed_path prefix) = inr content /\
      firstn 3 content = PLINK_BED_MAGIC)) /\
  files_checked r = 3 /\
  invalid r
  = (missing fs (bed_path prefix) "bed"
     ++ missing fs (bim_path prefix) "bim"
     ++ missing fs (fam_path prefix) "fam"
     ++ (if present fs (bed_path prefix)
            && negb (has_magic fs (bed_path prefix))
         then [("Invalid .bed magic bytes: " ++ bed_path prefix)%string]
         else []))%list /\
  valid r
  = Z.b2z (present fs (bed_path prefix) && has_magic fs (bed_path prefix))
    + Z.b2z (present fs (bim_path prefix))
    + Z.b2z (present fs (fam_path prefix)).
Proof.
  intros H. apply validate_plink_binary_returns in H as (-> & _ & _).
  split; [| now repeat split].
  rewrite all_valid_plink_report, !present_true, has_magic_iff. tauto.
Qed.

(** Scenario C: the complete fileset with the signature is valid. *)
Lemma plink_binary_report_when_returned_witness :
  exists r,
    validate_plink_binary Examples.fileset_fs "study" = inr r /\
    all_valid r = true.
Proof.
  eexists. split; [reflexivity |].
  apply (proj1 (plink_binary_report_when_returned
                  Examples.fileset_fs "study" _ eq_refl)).
  repeat split; try reflexivity.
  exists [x6c; x1b; x01; x00; x00]. split; reflexivity.
Defined.

(** C4 fails on the code, by the defect of C5.  The three files of the
    fileset exist, and the [.bed] file cannot be opened for reading:
    [validate_plink_binary] opens it outside any [try], so the
    [OSError] leaves the function and no report is returned, whatever
    the first three bytes of the file are. *)
Theorem plink_binary_unreadable_bed_raises :
  fs_exists MoreExamples.unreadable_bed_fs "study.bed" = inr true /\
  fs_exists MoreExamples.unreadable_bed_fs "study.bim" = inr true /\
  fs_exists MoreExamples.unreadable_bed_fs "study.fam" = inr true /\
  validate_plink_binary MoreExamples.unreadable_bed_fs "study"
  = inl (OSError "[Errno 13] Permission denied: 'study.bed'").
Proof. repeat split. Qed.

(** C5 fails on the code.  [validate_plink_binary] opens the [.bed]
    file outside any [try]: when the file exists and cannot be opened,
    the [OSError] leaves the function and no report is returned.
    [validate_vcf] catches [OSError] only: the [EOFError] of a gzip
    stream cut short leaves it as well. *)
Theorem validators_can_raise :
  validate_plink_binary Examples.bed_directory_fs "study"
  = inl (OSError "[Errno 21] Is a directory: 'study.bed'") /\
  validate_vcf Examples.truncated_gz_fs "calls.vcf.gz"
  = inl (EOFError
      "Compressed file ended before the end-of-stream marker was reached").
Proof. split; reflexivity. Qed.

(** What [validate_vcf] does get right: as long as the existence check
    returns and opening and reading raise nothing but [OSError], a
    report is returned, it checked one file, and it is either valid or
    holds one violation that starts with the text of its cause. *)
Lemma validate_vcf_reports fs p :
  (exists b, fs_exists fs (PyPath.str p) = inr b) ->
  (forall gz e, fs_open_text fs gz (PyPath.str p) = inl e ->
                is_OSError e = true) ->
  (forall gz fh e, fs_open_text fs gz (PyPath.str p) = inr fh ->
                   readline fh = inl e -> is_OSError e = true) ->
  exists r,
    validate_vcf fs p = inr r /\ files_checked r = 1 /\
    ((valid r = 1 /\ invalid r = []) \/
     (valid r = 0 /\
      exists c detail, invalid r = [cause_prefix c ++ detail])).
Proof.
  intros [b Hb] Hopen Hread. unfold validate_vcf. cbv zeta.
  rewrite Hb. cbn [bind]. destruct b; simpl negb; cbv iota.
  2:{ eexists. split; [reflexivity |]. split; [reflexivity |].
      right. split; [reflexivity |]. now exists NotFound, p. }
  assert (H : forall gz,
    exists r,
      match
        (first_line <-
           (fh <- fs_open_text fs gz (PyPath.str p) ;;
            l <- readline fh ;; inr (PyStr.strip l)) ;;
         if PyStr.startswith first_line VCF_HEADER
         then inr (set_valid 1
                 {| files_checked := 1; valid := 0; invalid := [];
                    warnings := [] |})
         else inr (invalid_append ("Missing VCF header: " ++ p)
                 {| files_checked := 1; valid := 0; invalid := [];
                    warnings := [] |}))
      with
      | inl exc =>
          if is_OSError exc
          then inr (invalid_append ("Read error: " ++ exn_str exc)
                 {| files_checked := 1; valid := 0; invalid := [];
                    warnings := [] |})
          else inl exc
      | inr report => inr report
      end = inr r /\ files_checked r = 1 /\
      ((valid r = 1 /\ invalid r = []) \/
       (valid r = 0 /\
        exists c detail, invalid r = [cause_prefix c ++ detail]))).
  { intros gz.
    destruct (fs_open_text fs gz (PyPath.str p)) as [e|fh] eqn:Eo; cbn [bind].
    - rewrite (Hopen gz e Eo). eexists. split; [reflexivity |].
      split; [reflexivity |]. right. split; [reflexivity |].
      now exists ReadError, (exn_str e).
    - destruct (readline fh) as [e|l] eqn:Er; cbn [bind].
      + rewrite (Hread gz fh e Eo Er). eexists. split; [reflexivity |].
        split; [reflexivity |]. right. split; [reflexivity |].
        now exists ReadError, (exn_str e).
      + destruct (PyStr.startswith (PyStr.strip l) VCF_HEADER).
        * eexists. split; [reflexivity |]. split; [reflexivity |].
          left. split; reflexivity.
        * eexists. split; [reflexivity |]. split; [reflexivity |].
          right. split; [reflexivity |]. now exists SignatureMismatch, p. }
  destruct (String.eqb (PyPath.suffix p) ".gz"); apply H.
Qed.

Lemma absorb_assoc a b c : absorb (absorb a b) c = absorb a (absorb b c).
Proof.
  unfold absorb; simpl. f_equal; try lia; now rewrite <- List.app_assoc.
Qed.

Lemma absorb_empty_l r : absorb empty_report r = r.
Proof. destruct r. unfold absorb; simpl. reflexivity. Qed.

Lemma absorb_empty_r r : absorb r empty_report = r.
Proof.
  destruct r. unfold absorb; simpl. f_equal; try lia; apply List.app_nil_r.
Qed.

Lemma aggregate_cons sub subs :
  aggregate (sub :: subs) = absorb sub (aggregate subs).
Proof. reflexivity. Qed.

Lemma validate_one_dispatched fs p sub :
  dispatched fs p sub -> validate_one fs p = inr sub.
Proof.
  unfold dispatched, validate_one, is_text_suffix. cbv zeta.
  now destruct (_ || _).
Qed.

Lemma validate_batch_loop_aggregate fs paths subs :
  Forall2 (dispatched fs) paths subs ->
  forall combined,
    validate_batch_loop fs paths combined
    = inr (absorb combined (aggregate subs)).
Proof.
  induction 1 as [|p sub paths subs Hp _ IH]; intros combined.
  - simpl. now rewrite absorb_empty_r.
  - simpl. rewrite (validate_one_dispatched _ _ _ Hp). simpl bind.
    rewrite IH, aggregate_cons, absorb_assoc. reflexivity.
Qed.

(** C7.  When every path, sent to [validate_vcf] if its suffix is
    [.vcf] or [.gz] and to [validate_plink_binary] as a prefix
    otherwise, yields a report, [validate_batch] returns the report
    whose counts are the sums and whose sequences are the
    concatenations, in input order, of those reports. *)
Theorem validate_batch_aggregates fs paths subs :
  Forall2 (dispatched fs) paths subs ->
  validate_batch fs paths
  = inr {| files_checked := sumZ (map files_checked subs);
           valid := sumZ (map valid subs);
           invalid := concat (map invalid subs);
           warnings := concat (map warnings subs) |}.
Proof.
  intros H. unfold validate_batch. cbv zeta.
  rewrite (validate_batch_loop_aggregate fs paths subs H).
  fold empty_report. now rewrite absorb_empty_l.
Qed.

Lemma validate_batch_aggregates_witness :
  validate_batch Examples.fileset_fs ["calls.vcf"; "study"; "other"]
  = inr {| files_checked := 7; valid := 4;
           invalid := ["Missing .bed file: other.bed";
                       "Missing .bim file: other.bim";
                       "Missing .fam file: other.fam"];
           warnings := [] |}.
Proof.
  apply (validate_batch_aggregates Examples.fileset_fs
           ["calls.vcf"; "study"; "other"]
           [ {| files_checked := 1; valid := 1; invalid := [];
                warnings := [] |};
             {| files_checked := 3; valid := 3; invalid := [];
                warnings := [] |};
             {| files_checked := 3; valid := 0;
                invalid := ["Missing .bed file: other.bed";
                            "Missing .bim file: other.bim";
                            "Missing .fam file: other.fam"];
                warnings := [] |} ]).
  repeat constructor.
Defined.

(** A batch over a concatenation is the aggregation of the batches. *)
Lemma validate_batch_loop_app fs ps qs :
  forall combined,
    validate_batch_loop fs (ps ++ qs) combined
    = (r <- validate_batch_loop fs ps combined ;;
       validate_batch_loop fs qs r).
Proof.
  induction ps as [|p ps IH]; intros combined; simpl; [reflexivity |].
  destruct (validate_one fs p) as [e|sub]; simpl bind; [reflexivity |].
  apply IH.
Qed.

(** C10.  The batch of no paths is the empty report: nothing checked,
    nothing valid, no violations, no warnings, hence [all_valid]; and
    the empty report is neutral, on both sides, for the aggregation
    that [validate_batch] performs. *)
Theorem validate_batch_empty fs :
  validate_batch fs [] = inr empty_report /\
  files_checked empty_report = 0 /\ valid empty_report = 0 /\
  invalid empty_report = [] /\ warnings empty_report = [] /\
  all_valid empty_report = true /\
  (forall r, absorb empty_report r = r) /\
  (forall r, absorb r empty_report = r) /\
  (forall paths,
      validate_batch fs ([] ++ paths) = validate_batch fs paths /\
      validate_batch fs (paths ++ []) = validate_batch fs paths).
Proof.
  repeat split; try reflexivity.
  - apply absorb_empty_l.
  - apply absorb_empty_r.
  - now rewrite List.app_nil_r.
Qed.

End ValidatorFacts.

(* ================================================================= *)
(** ** More facts about the string primitives *)

Module PyStrMore.
Import PyStr PyStrFacts.

Lemma rstrip_cons_nonspace (c : ascii) (t : string) :
  isspace c = false -> rstrip (String c t) = String c (rstrip t).
Proof.
  intros H. cbn [rstrip]. destruct (rstrip t); [now rewrite H | reflexivity].
Qed.

Lemma rstrip_idem (s : string) : rstrip (rstrip s) = rstrip s.
Proof.
  induction s as [|c s IH]; [reflexivity |].
  cbn [rstrip]. destruct (rstrip s) as [|d t] eqn:E.
  - destruct (isspace c) eqn:Hc; [reflexivity |].
    cbn [rstrip]. now rewrite Hc.
  - cbn [rstrip]. cbn [rstrip] in IH. rewrite IH. reflexivity.
Qed.

Lemma lstrip_head (s : string) :
  lstrip s = "" \/ exists c t, lstrip s = String c t /\ isspace c = false.
Proof.
  induction s as [|c s IH]; [now left |].
  cbn [lstrip]. destruct (isspace c) eqn:Hc; [exact IH |].
  right. now exists c, s.
Qed.

(** Trimming twice is trimming once. *)
Lemma strip_idem (s : string) : strip (strip s) = strip s.
Proof.
  unfold strip. destruct (lstrip_head s) as [-> | (c & t & -> & Hc)].
  - reflexivity.
  - rewrite (rstrip_cons_nonspace c t Hc). cbn [lstrip]. rewrite Hc.
    rewrite (rstrip_cons_nonspace c _ Hc), rstrip_idem. reflexivity.
Qed.

(** Where a character does not occur. *)
Lemma has_char_cons (c x : ascii) (s : string) :
  has_char c (String x s) = Ascii.eqb x c || has_char c s.
Proof. unfold has_char. simpl. now destruct (Ascii.eqb x c). Qed.

Lemma has_char_take_drop (c : ascii) :
  forall u k m n,
    has_char c (take k u) = false -> (m + n <= k)%nat ->
    has_char c (take n (drop m u)) = false.
Proof.
  induction u as [|x u IH]; intros k m n H Hle.
  - destruct m, n; reflexivity.
  - destruct k as [|k].
    + assert (m = 0%nat /\ n = 0%nat) as [-> ->] by lia. reflexivity.
    + cbn [take] in H. rewrite has_char_cons in H.
      apply orb_false_iff in H as [Hx Hu].
      destruct m as [|m].
      * cbn [drop]. destruct n as [|n]; [reflexivity |].
        cbn [take]. rewrite has_char_cons, Hx. simpl orb.
        apply (IH k 0%nat n Hu). lia.
      * cbn [drop]. apply (IH k m n Hu). lia.
Qed.

Lemma take_all (s : string) : take (String.length s) s = s.
Proof. induction s as [|c s IH]; simpl; [reflexivity | now rewrite IH]. Qed.

Lemma take_beyond (s : string) (n : nat) :
  (String.length s <= n)%nat -> take n s = s.
Proof.
  revert n; induction s as [|c s IH]; intros [|n] H; simpl in *;
    try reflexivity; try lia.
  rewrite IH; [reflexivity | lia].
Qed.

Lemma has_char_sub (c : ascii) (u : string) (m n : nat) :
  has_char c u = false -> has_char c (take n (drop m u)) = false.
Proof.
  intros H.
  destruct (Nat.le_gt_cases (m + n) (String.length u)) as [Hle | Hgt].
  - apply has_char_take_drop with (k := String.length u);
      [now rewrite take_all | exact Hle].
  - apply has_char_take_drop with (k := (m + n)%nat); [| lia].
    rewrite take_beyond by lia. exact H.
Qed.

(** The scan for a character passes over no occurrence of it. *)
Lemma find_at_char_spec (c : ascii) :
  forall s i r,
    find_at (String c "") s i = r ->
    (r = -1 /\ has_char c s = false) \/
    (i <= r /\ r - i < len s /\
     has_char c (take (Z.to_nat (r - i)) s) = false).
Proof.
  induction s as [|x s IH]; intros i r H; cbn [find_at] in H.
  - simpl in H. left. now subst r.
  - simpl startswith in H. rewrite andb_true_r in H.
    destruct (Ascii.eqb c x) eqn:E.
    + right. subst r. replace (i - i) with 0 by lia.
      unfold len. simpl String.length. simpl. repeat split; lia.
    + destruct (IH (i + 1) r H) as [[-> Hs] | (Hi & Hlt & Hs)].
      * left. split; [reflexivity |].
        rewrite has_char_cons, Ascii.eqb_sym, E, Hs. reflexivity.
      * right. unfold len in *. simpl String.length.
        split; [lia |]. split; [lia |].
        replace (Z.to_nat (r - i)) with (S (Z.to_nat (r - (i + 1)))) by lia.
        cbn [take]. rewrite has_char_cons, Ascii.eqb_sym, E, Hs.
        reflexivity.
Qed.

Lemma length_drop (n : nat) (s : string) :
  String.length (drop n s) = (String.length s - n)%nat.
Proof.
  revert s; induction n as [|n IH]; intros [|c s]; simpl; try lia.
  apply IH.
Qed.

(** A slice that starts at or after [st] and ends at or before the
    first [c] found from [st] holds no [c]. *)
Lemma slice_before_char (c : ascii) (s : string) (st a b : Z) :
  0 <= st <= len s -> st <= a ->
  (0 <= find s (String c "") st -> b = find s (String c "") st) ->
  has_char c (slice s a b) = false.
Proof.
  intros Hst Ha Hb. unfold find in Hb. cbv zeta in Hb.
  rewrite (proj2 (Z.ltb_ge st 0)) in Hb by lia.
  rewrite (proj2 (Z.ltb_ge (len s) st)) in Hb by lia.
  unfold slice. cbv zeta.
  set (a' := clip (len s) a). set (b' := clip (len s) b).
  assert (Ha' : st <= a' <= len s).
  { unfold a', clip. rewrite (proj2 (Z.ltb_ge a 0)) by lia. lia. }
  assert (Hdrop : drop (Z.to_nat a') s
                  = drop (Z.to_nat (a' - st)) (drop (Z.to_nat st) s)).
  { rewrite drop_drop. f_equal. lia. }
  rewrite Hdrop.
  destruct (find_at_char_spec c (drop (Z.to_nat st) s) st _ eq_refl)
    as [[Hr Hs] | (Hi & Hlt & Hs)].
  - now apply has_char_sub.
  - specialize (Hb ltac:(lia)).
    assert (Hb' : b' = b).
    { unfold b', clip. rewrite (proj2 (Z.ltb_ge b 0)) by lia.
      unfold len in Hlt. rewrite length_drop in Hlt. unfold len. lia. }
    destruct (Z_le_gt_dec b' a') as [Hle | Hgt].
    + replace (Z.to_nat (b' - a')) with 0%nat by lia.
      now destruct (drop _ _).
    + eapply has_char_take_drop; [exact Hs |]. rewrite <- Hb, <- Hb'. lia.
Qed.

(** [find] from the start reports [-1] or a position of the string. *)
Lemma find_zero_bounds (s sub : string) :
  find s sub 0 = -1 \/ 0 <= find s sub 0 <= len s.
Proof.
  rewrite find_zero.
  destruct (Z.eq_dec (find_at sub s 0) (-1)) as [E | Hne]; [now left |].
  right.
  destruct (find_at_found sub s 0 _ eq_refl Hne ltac:(lia))
    as (pre & post & Hs & Hr).
  rewrite Hr. subst s. rewrite !len_app.
  pose proof (len_nonneg pre). pose proof (len_nonneg sub).
  pose proof (len_nonneg post). unfold len in *. lia.
Qed.

End PyStrMore.

(* ================================================================= *)
(** ** The inspector: invariants of a pass *)

Module InspectorMore.
Import PyStr PyStrFacts PyStrMore Inspector InspectorLines InspectorFacts.

Lemma truthy_nonempty (s : string) : truthy s = true -> s <> "".
Proof. destruct s; [discriminate | discriminate]. Qed.

(** One call of [_parse_meta_line] changes nothing, or appends one
    identifier, not empty and without a comma, to the list of the tag
    that the line begins with. *)
Lemma parse_meta_line_step line r :
  _parse_meta_line line r = r \/
  exists t id,
    startswith line (tag_prefix t) = true /\
    id <> "" /\ has_char "," id = false /\
    _parse_meta_line line r = append_id t id r.
Proof.
  assert (Htag : forall t, startswith line (tag_prefix t) = true ->
    _parse_meta_line line r = r \/
    exists t id,
      startswith line (tag_prefix t) = true /\
      id <> "" /\ has_char "," id = false /\
      _parse_meta_line line r = append_id t id r).
  { intros t Ht. rewrite (parse_meta_line_branch t line r Ht). cbv zeta.
    destruct (0 <=? find line "ID=" 0) eqn:Hs; [| now left].
    apply Z.leb_le in Hs.
    destruct (find_zero_bounds line "ID=") as [E | Hb]; [lia |].
    match goal with
    | |- (if truthy ?v then _ else _) = _ \/ _ =>
        destruct (truthy v) eqn:Hv; [| now left];
        right; exists t, v;
        split; [exact Ht |];
        split; [now apply truthy_nonempty |];
        split; [| reflexivity]
    end.
    apply slice_before_char with (st := find line "ID=" 0); [lia | lia |].
    intros He. destruct t; try reflexivity.
    now rewrite (proj2 (Z.ltb_ge _ 0) He). }
  destruct (startswith line "##contig=") eqn:H1;
    [exact (Htag ContigTag H1) |].
  destruct (startswith line "##INFO=") eqn:H2;
    [exact (Htag InfoTag H2) |].
  destruct (startswith line "##FORMAT=") eqn:H3;
    [exact (Htag FormatTag H3) |].
  left. now apply parse_meta_line_other_tag.
Qed.

Lemma ids_of_set_header t v r :
  ids_of t (set_header_line_count v r) = ids_of t r.
Proof. now destruct t. Qed.

Lemma ids_of_append_id t t' id r :
  ids_of t' (append_id t id r)
  = if match t, t' with
       | ContigTag, ContigTag | InfoTag, InfoTag
       | FormatTag, FormatTag => true
       | _, _ => false
       end
    then (ids_of t' r ++ [id])%list else ids_of t' r.
Proof. now destruct t, t'. Qed.

(** One iteration of the loop, seen from the three lists. *)
Lemma inspect_line_ids r raw :
  (forall t, ids_of t (inspect_line r raw) = ids_of t r) \/
  exists t id,
    has_tag t raw = true /\ id <> "" /\ has_char "," id = false /\
    ids_of t (inspect_line r raw) = (ids_of t r ++ [id])%list /\
    forall t', t' <> t -> ids_of t' (inspect_line r raw) = ids_of t' r.
Proof.
  unfold inspect_line. cbv zeta.
  destruct (startswith (strip raw) "##").
  - destruct (parse_meta_line_step (strip raw)
               (set_header_line_count (header_line_count r + 1) r))
      as [-> | (t & id & Ht & Hne & Hc & ->)].
    + left. intros t. apply ids_of_set_header.
    + right. exists t, id. repeat split; try assumption.
      * rewrite ids_of_append_id, ids_of_set_header. now destruct t.
      * intros t' Hneq. rewrite ids_of_append_id, ids_of_set_header.
        destruct t, t'; try reflexivity; congruence.
  - left. intros t. split_ifs; now destruct t.
Qed.

(** The prefixes of the three tags exclude one another, and each makes
    the line a meta-line. *)
Lemma tags_within_meta raw :
  Z.b2z (has_tag ContigTag raw) + Z.b2z (has_tag InfoTag raw)
  + Z.b2z (has_tag FormatTag raw) <= Z.b2z (is_meta raw).
Proof.
  unfold has_tag, is_meta.
  destruct (startswith (strip raw) (tag_prefix ContigTag)) eqn:H1.
  { apply startswith_inv in H1 as [tl ->]. simpl. lia. }
  destruct (startswith (strip raw) (tag_prefix InfoTag)) eqn:H2.
  { apply startswith_inv in H2 as [tl ->]. simpl. lia. }
  destruct (startswith (strip raw) (tag_prefix FormatTag)) eqn:H3.
  { apply startswith_inv in H3 as [tl ->]. simpl. lia. }
  destruct (startswith (strip raw) "##"); simpl Z.b2z; lia.
Qed.

Lemma tag_eq_dec (a b : tag) : {a = b} + {a <> b}.
Proof. decide equality. Defined.

Lemma fold_ids_wellformed lines :
  forall r,
    (forall t id, In id (ids_of t r) -> id <> "" /\ has_char "," id = false) ->
    forall t id, In id (ids_of t (fold_left inspect_line lines r)) ->
                 id <> "" /\ has_char "," id = false.
Proof.
  induction lines as [|raw lines IH]; intros r Hr; simpl fold_left;
    [exact Hr |].
  apply IH. intros t id Hin.
  destruct (inspect_line_ids r raw) as [Hsame | (t0 & id0 & _ & Hne & Hc & Happ & Hoth)].
  - rewrite Hsame in Hin. now apply Hr in Hin.
  - destruct (tag_eq_dec t t0) as [-> | Hneq].
    + rewrite Happ in Hin. apply in_app_or in Hin as [Hin | [<- | []]].
      * now apply Hr in Hin.
      * now split.
    + rewrite (Hoth t Hneq) in Hin. now apply Hr in Hin.
Qed.

Lemma fold_ids_length t lines :
  forall r,
    Z.of_nat (length (ids_of t (fold_left inspect_line lines r)))
    <= Z.of_nat (length (ids_of t r)) + count (has_tag t) lines.
Proof.
  induction lines as [|raw lines IH]; intros r; simpl fold_left.
  - unfold count. simpl. lia.
  - rewrite count_cons. specialize (IH (inspect_line r raw)).
    destruct (inspect_line_ids r raw) as [Hsame | (t0 & id0 & Ht0 & _ & _ & Happ & Hoth)].
    + rewrite Hsame in IH. destruct (has_tag t raw); simpl Z.b2z; lia.
    + destruct (tag_eq_dec t t0) as [-> | Hneq].
      * rewrite Happ, List.length_app in IH. simpl length in IH.
        rewrite Ht0. simpl Z.b2z. lia.
      * rewrite (Hoth t Hneq) in IH.
        destruct (has_tag t raw); simpl Z.b2z; lia.
Qed.

Lemma count_tags_within_meta lines :
  count (has_tag ContigTag) lines + count (has_tag InfoTag) lines
  + count (has_tag FormatTag) lines <= count is_meta lines.
Proof.
  induction lines as [|raw lines IH]; [unfold count; simpl; lia |].
  rewrite !count_cons. pose proof (tags_within_meta raw). lia.
Qed.

(** Every non-blank line is a meta-line, a column header or a data
    line, and only one of them. *)
Lemma line_classes raw :
  Z.b2z (is_meta raw) + Z.b2z (is_column_header raw) + Z.b2z (is_data raw)
  = Z.b2z (negb (is_blank raw)).
Proof.
  unfold is_data.
  destruct (is_meta raw) eqn:Hm.
  - rewrite (meta_not_blank raw Hm).
    destruct (is_column_header raw) eqn:Hh;
      [apply header_not_meta in Hh; congruence | reflexivity].
  - destruct (is_column_header raw) eqn:Hh.
    + rewrite (header_not_blank raw Hh). reflexivity.
    + destruct (is_blank raw); reflexivity.
Qed.

Lemma count_classes lines :
  count is_meta lines + count is_column_header lines + count is_data lines
  = count (fun l => negb (is_blank l)) lines.
Proof.
  induction lines as [|raw lines IH]; [reflexivity |].
  rewrite !count_cons. pose proof (line_classes raw). lia.
Qed.

(** [sample_count] after a pass that started from [0]. *)
Lemma fold_sample_count lines :
  forall p,
    sample_count (fold_left inspect_line lines (new_result p))
    = last_sample_count lines.
Proof.
  intros p. induction lines as [|raw lines IH] using rev_ind;
    [reflexivity |].
  rewrite fold_left_app. simpl fold_left.
  rewrite inspect_line_sample_count, IH.
  unfold last_sample_count. rewrite rev_app_distr. simpl rev. simpl List.find.
  unfold is_wide_header at 2.
  destruct (is_column_header raw && (9 <? column_count raw)); reflexivity.
Qed.

(** A blank line changes nothing, and only the trimmed line matters. *)
Lemma inspect_line_blank r raw : is_blank raw = true -> inspect_line r raw = r.
Proof.
  unfold is_blank, inspect_line. cbv zeta.
  destruct (strip raw); [reflexivity | discriminate].
Qed.

Lemma inspect_line_strip r raw :
  inspect_line r (strip raw) = inspect_line r raw.
Proof. unfold inspect_line. now rewrite strip_idem. Qed.

Lemma fold_trimmed lines :
  forall r,
    fold_left inspect_line
      (map strip (filter (fun l => negb (is_blank l)) lines)) r
    = fold_left inspect_line lines r.
Proof.
  induction lines as [|raw lines IH]; intros r; [reflexivity |].
  simpl filter. destruct (is_blank raw) eqn:Hb; simpl negb; cbv iota.
  - simpl fold_left. rewrite (inspect_line_blank r raw Hb). apply IH.
  - simpl map. simpl fold_left. rewrite inspect_line_strip. apply IH.
Qed.

Lemma fold_sample_count_from lines :
  forall r0,
    sample_count (fold_left inspect_line lines r0)
    = if existsb is_wide_header lines then last_sample_count lines
      else sample_count r0.
Proof.
  induction lines as [|raw lines IH] using rev_ind; intros r0;
    [reflexivity |].
  rewrite fold_left_app. simpl fold_left.
  rewrite inspect_line_sample_count, IH, existsb_app. simpl existsb.
  rewrite orb_false_r.
  unfold last_sample_count. rewrite rev_app_distr. simpl rev. simpl List.find.
  fold (is_wide_header raw).
  destruct (is_wide_header raw); [now rewrite orb_true_r |].
  now rewrite orb_false_r.
Qed.

Lemma flat_map_ids t lines p :
  ids_of t (fold_left inspect_line lines (new_result p))
  = flat_map (fun raw => ids_of t (inspect_line (new_result "") raw)) lines.
Proof.
  destruct (fold_lists lines (new_result p)) as (Hc & Hi & Hf).
  destruct t; cbn [ids_of]; [rewrite Hc | rewrite Hi | rewrite Hf];
    reflexivity.
Qed.

(* ----------------------------------------------------------------- *)
(** *** Further properties of [inspect] *)

(** X1.  A pass counts every non-blank line exactly once, as a header
    line or as a variant: the two counts add up to the number of
    non-blank lines, and neither is negative. *)
Theorem inspect_counts_every_nonblank_line fs p lines :
  fs_open_text fs (opens_gz p) (PyPath.str p) = inr (map inr lines) ->
  exists r,
    inspect fs p = inr r /\
    header_line_count r + variant_count r
    = count (fun l => negb (is_blank l)) lines /\
    0 <= header_line_count r /\ 0 <= variant_count r /\
    header_line_count r + variant_count r <= Z.of_nat (length lines).
Proof.
  intros Hopen. exists (inspect_lines p lines).
  split; [now apply inspect_returns |].
  unfold inspect_lines.
  rewrite fold_header_line_count, fold_variant_count. simpl.
  pose proof (count_classes lines) as Hc.
  pose proof (count_nonneg is_meta lines).
  pose proof (count_nonneg is_column_header lines).
  pose proof (count_nonneg is_data lines).
  assert (Hlen : count (fun l => negb (is_blank l)) lines
                 <= Z.of_nat (length lines)).
  { unfold count. pose proof (filter_length_le
      (fun l => negb (is_blank l)) lines). lia. }
  repeat split; lia.
Qed.

Lemma inspect_counts_every_nonblank_line_witness :
  exists r,
    inspect (MoreExamples.lines_fs MoreExamples.untidy_a) "calls.vcf" = inr r /\
    header_line_count r + variant_count r = 3.
Proof.
  destruct (inspect_counts_every_nonblank_line
              (MoreExamples.lines_fs MoreExamples.untidy_a) "calls.vcf"
              MoreExamples.untidy_a eq_refl)
    as (r & Hr & Hsum & _).
  exists r. split; [exact Hr |]. rewrite Hsum. reflexivity.
Defined.

(** X2.  [sample_count] is what the last column-header line with more
    than nine columns assigns, its column count less nine, and [0] when
    the file has no such line; so it is [0] or at least [1]. *)
Theorem inspect_sample_count_last_wide_header fs p lines :
  fs_open_text fs (opens_gz p) (PyPath.str p) = inr (map inr lines) ->
  exists r,
    inspect fs p = inr r /\
    sample_count r = last_sample_count lines /\
    (sample_count r = 0 \/ 1 <= sample_count r).
Proof.
  intros Hopen. exists (inspect_lines p lines).
  split; [now apply inspect_returns |].
  unfold inspect_lines. rewrite fold_sample_count.
  split; [reflexivity |].
  unfold last_sample_count.
  destruct (List.find is_wide_header (rev lines)) as [hdr|] eqn:E;
    [| now left].
  apply find_some in E as [_ Hw]. unfold is_wide_header in Hw.
  apply andb_true_iff in Hw as [_ Hw]. apply Z.ltb_lt in Hw.
  right. lia.
Qed.

Lemma inspect_sample_count_last_wide_header_witness :
  exists r,
    inspect (Examples.text_fs Examples.two_headers) "calls.vcf" = inr r /\
    sample_count r = 1.
Proof.
  destruct (inspect_sample_count_last_wide_header
              (Examples.text_fs Examples.two_headers) "calls.vcf"
              (lines Examples.two_headers) eq_refl)
    as (r & Hr & Hs & _).
  exists r. split; [exact Hr |]. rewrite Hs. reflexivity.
Defined.

(** X3.  No identifier in [contigs], [info_fields] or [format_fields]
    is empty, and none holds a comma. *)
Theorem inspect_ids_wellformed fs p lines :
  fs_open_text fs (opens_gz p) (PyPath.str p) = inr (map inr lines) ->
  exists r,
    inspect fs p = inr r /\
    forall t id, In id (ids_of t r) -> id <> "" /\ has_char "," id = false.
Proof.
  intros Hopen. exists (inspect_lines p lines).
  split; [now apply inspect_returns |].
  unfold inspect_lines. apply fold_ids_wellformed.
  intros t id Hin. destruct t; destruct Hin.
Qed.

Lemma inspect_ids_wellformed_witness :
  exists r,
    inspect (Examples.text_fs Examples.basic) "calls.vcf" = inr r /\
    In "AC" (info_fields r) /\ has_char "," "AC" = false.
Proof.
  destruct (inspect_ids_wellformed
              (Examples.text_fs Examples.basic) "calls.vcf"
              (lines Examples.basic) eq_refl)
    as (r & Hr & Hwf).
  exists r. split; [exact Hr |].
  assert (Hin : In "AC" (ids_of InfoTag r)).
  { injection Hr as <-. left. reflexivity. }
  split; [exact Hin |]. exact (proj2 (Hwf InfoTag "AC" Hin)).
Defined.

(** X4.  Each list holds at most one identifier per line that begins
    with its tag; the three kinds of tagged lines are meta-lines, so the
    three lists together are no longer than [header_line_count]. *)
Theorem inspect_lists_bounded fs p lines :
  fs_open_text fs (opens_gz p) (PyPath.str p) = inr (map inr lines) ->
  exists r,
    inspect fs p = inr r /\
    (forall t, Z.of_nat (length (ids_of t r)) <= count (has_tag t) lines) /\
    Z.of_nat (length (contigs r) + length (info_fields r)
              + length (format_fields r))
    <= count is_meta lines /\
    count is_meta lines <= header_line_count r.
Proof.
  intros Hopen. exists (inspect_lines p lines).
  split; [now apply inspect_returns |].
  unfold inspect_lines.
  assert (Hlen : forall t,
    Z.of_nat (length (ids_of t (fold_left inspect_line lines (new_result p))))
    <= count (has_tag t) lines).
  { intros t. pose proof (fold_ids_length t lines (new_result p)) as H.
    destruct t; simpl in H |- *; lia. }
  split; [exact Hlen |]. split.
  - pose proof (Hlen ContigTag). pose proof (Hlen InfoTag).
    pose proof (Hlen FormatTag). cbn [ids_of] in *.
    pose proof (count_tags_within_meta lines). lia.
  - rewrite fold_header_line_count. simpl.
    pose proof (count_nonneg is_column_header lines). lia.
Qed.

Lemma inspect_lists_bounded_witness :
  exists r,
    inspect (Examples.text_fs Examples.basic) "calls.vcf" = inr r /\
    Z.of_nat (length (contigs r) + length (info_fields r)
              + length (format_fields r)) <= 4.
Proof.
  destruct (inspect_lists_bounded
              (Examples.text_fs Examples.basic) "calls.vcf"
              (lines Examples.basic) eq_refl)
    as (r & Hr & _ & Hsum & _).
  exists r. split; [exact Hr |]. exact Hsum.
Defined.

(** X5.  Blank lines and the white space around a line do not count:
    two files whose non-blank lines are the same once trimmed get the
    same summary. *)
Theorem inspect_ignores_blank_and_padding fs1 fs2 p lines1 lines2 :
  fs_open_text fs1 (opens_gz p) (PyPath.str p) = inr (map inr lines1) ->
  fs_open_text fs2 (opens_gz p) (PyPath.str p) = inr (map inr lines2) ->
  map strip (filter (fun l => negb (is_blank l)) lines1)
  = map strip (filter (fun l => negb (is_blank l)) lines2) ->
  inspect fs1 p = inspect fs2 p.
Proof.
  intros H1 H2 E.
  rewrite (inspect_returns fs1 p lines1 H1), (inspect_returns fs2 p lines2 H2).
  unfold inspect_lines.
  rewrite <- (fold_trimmed lines1), <- (fold_trimmed lines2), E.
  reflexivity.
Qed.

Lemma inspect_ignores_blank_and_padding_witness :
  inspect (Examples.text_fs Examples.scenario_a) "calls.vcf"
  = inspect (MoreExamples.lines_fs MoreExamples.untidy_a) "calls.vcf".
Proof.
  apply (inspect_ignores_blank_and_padding
           (Examples.text_fs Examples.scenario_a)
           (MoreExamples.lines_fs MoreExamples.untidy_a) "calls.vcf"
           (lines Examples.scenario_a) MoreExamples.untidy_a);
    reflexivity.
Defined.

(** X6.  A pass over two runs of lines, one after the other: the
    header and variant counts add up, each list is the list of the
    first run followed by that of the second, and [sample_count] is
    that of the second run when it has a column-header line with more
    than nine columns, and that of the first run otherwise. *)
Theorem inspect_concat fs1 fs2 fs p1 p2 p lines1 lines2 :
  fs_open_text fs1 (opens_gz p1) (PyPath.str p1) = inr (map inr lines1) ->
  fs_open_text fs2 (opens_gz p2) (PyPath.str p2) = inr (map inr lines2) ->
  fs_open_text fs (opens_gz p) (PyPath.str p)
  = inr (map inr (lines1 ++ lines2)) ->
  exists r1 r2 r,
    inspect fs1 p1 = inr r1 /\ inspect fs2 p2 = inr r2 /\
    inspect fs p = inr r /\
    header_line_count r = header_line_count r1 + header_line_count r2 /\
    variant_count r = variant_count r1 + variant_count r2 /\
    (forall t, ids_of t r = (ids_of t r1 ++ ids_of t r2)%list) /\
    sample_count r
    = (if existsb is_wide_header lines2 then sample_count r2
       else sample_count r1).
Proof.
  intros H1 H2 H.
  exists (inspect_lines p1 lines1), (inspect_lines p2 lines2),
         (inspect_lines p (lines1 ++ lines2)).
  rewrite (inspect_returns _ _ _ H1), (inspect_returns _ _ _ H2),
          (inspect_returns _ _ _ H).
  do 3 (split; [reflexivity |]).
  unfold inspect_lines.
  rewrite !fold_header_line_count, !fold_variant_count, !count_app.
  simpl header_line_count. simpl variant_count.
  split; [lia |]. split; [lia |]. split.
  - intros t. rewrite !flat_map_ids. apply flat_map_app.
  - rewrite fold_left_app, fold_sample_count_from, !fold_sample_count.
    reflexivity.
Qed.

Lemma inspect_concat_witness :
  exists r,
    inspect (MoreExamples.lines_fs
               (MoreExamples.first_half ++ MoreExamples.second_half))
            "calls.vcf" = inr r /\
    header_line_count r = 5 /\ variant_count r = 3 /\
    contigs r = ["1"; "2"; "1"] /\ sample_count r = 2.
Proof.
  destruct (inspect_concat
              (MoreExamples.lines_fs MoreExamples.first_half)
              (MoreExamples.lines_fs MoreExamples.second_half)
              (MoreExamples.lines_fs
                 (MoreExamples.first_half ++ MoreExamples.second_half))
              "a.vcf" "b.vcf" "calls.vcf"
              MoreExamples.first_half MoreExamples.second_half
              eq_refl eq_refl eq_refl)
    as (r1 & r2 & r & Hr1 & Hr2 & Hr & Hh & Hv & Hids & Hs).
  exists r. split; [exact Hr |].
  injection Hr1 as <-. injection Hr2 as <-.
  rewrite Hh, Hv, Hs. specialize (Hids ContigTag). cbn [ids_of] in Hids.
  rewrite Hids. repeat split.
Defined.

End InspectorMore.

(* ================================================================= *)
(** ** The inspector: the identifier rule, line by line *)

Module InspectorRules.
Import PyStr PyStrFacts PyStrMore Inspector InspectorLines InspectorFacts
       InspectorMore.








Lemma meta_not_header raw : is_meta raw = true -> is_column_header raw = false.
Proof.
  intros Hm. destruct (is_column_header raw) eqn:Hh; [| reflexivity].
  apply header_not_meta in Hh. congruence.
Qed.




(** C9, as the code has it.  The three lists are the contributions of
    the lines, in file order and with repetitions; a meta-line in which
    the text [ID=] does not occur contributes nothing; a meta-line that
    begins with none of [##contig=], [##INFO=], [##FORMAT=] adds one to
    [header_line_count] and leaves every other field as it was; a line
    that is not a meta-line contributes nothing to the lists. *)
Theorem lists_in_file_order fs p lines :
  fs_open_text fs (opens_gz p) (PyPath.str p) = inr (map inr lines) ->
  exists r,
    inspect fs p = inr r /\
    (contigs r = flat_map line_contigs lines /\
     info_fields r = flat_map line_info_fields lines /\
     format_fields r = flat_map line_format_fields lines) /\
    (forall raw,
        is_meta raw = true -> absent "ID=" (strip raw) ->
        line_contigs raw = [] /\ line_info_fields raw = [] /\
        line_format_fields raw = []) /\
    (forall raw r0,
        is_meta raw = true ->
        startswith (strip raw) "##contig=" = false ->
        startswith (strip raw) "##INFO=" = false ->
        startswith (strip raw) "##FORMAT=" = false ->
        header_line_count (inspect_line r0 raw) = header_line_count r0 + 1 /\
        contigs (inspect_line r0 raw) = contigs r0 /\
        info_fields (inspect_line r0 raw) = info_fields r0 /\
        format_fields (inspect_line r0 raw) = format_fields r0 /\
        sample_count (inspect_line r0 raw) = sample_count r0 /\
        variant_count (inspect_line r0 raw) = variant_count r0 /\
        file_path (inspect_line r0 raw) = file_path r0) /\
    (forall raw,
        is_meta raw = false ->
        line_contigs raw = [] /\ line_info_fields raw = [] /\
        line_format_fields raw = []).
Proof.
  intros Hopen. exists (inspect_lines p lines).
  split; [now apply inspect_returns |].
  split; [| split; [| split]].
  - unfold inspect_lines.
    destruct (fold_lists lines (new_result p)) as (-> & -> & ->).
    now repeat split.
  - intros raw Hm Habs.
    unfold line_contigs, line_info_fields, line_format_fields, inspect_line.
    cbv zeta. unfold is_meta in Hm. rewrite Hm.
    rewrite parse_meta_line_no_id by exact Habs. now repeat split.
  - intros raw r0 Hm H1 H2 H3.
    pose proof (meta_not_header raw Hm) as Hh.
    split.
    { rewrite inspect_line_header_line_count, Hm, Hh. simpl Z.b2z. lia. }
    unfold inspect_line. cbv zeta. unfold is_meta in Hm. rewrite Hm.
    rewrite parse_meta_line_other_tag by assumption.
    now repeat split.
  - intros raw Hm.
    unfold line_contigs, line_info_fields, line_format_fields, inspect_line.
    cbv zeta. unfold is_meta in Hm. rewrite Hm.
    split_ifs; now repeat split.
Qed.

Lemma lists_in_file_order_witness :
  exists r,
    inspect (Examples.text_fs Examples.basic) "calls.vcf" = inr r /\
    contigs r = ["1"] /\ info_fields r = ["AC"] /\ format_fields r = ["GT"] /\
    line_contigs ("##source=caller" ++ NL) = [] /\
    header_line_count
      (inspect_line (new_result "calls.vcf") ("##source=caller" ++ NL)) = 1.
Proof.
  destruct (lists_in_file_order
              (Examples.text_fs Examples.basic) "calls.vcf"
              (lines Examples.basic) eq_refl)
    as (r & Hr & (Hc & Hi & Hf) & Hnoid & Hother & _).
  exists r. split; [exact Hr |].
  rewrite Hc, Hi, Hf. do 3 (split; [reflexivity |]).
  split.
  - apply (Hnoid ("##source=caller" ++ NL)); [reflexivity |].
    apply absent_by_scan. reflexivity.
  - apply (Hother ("##source=caller" ++ NL) (new_result "calls.vcf"));
      reflexivity.
Defined.

(** C9 as stated fails: a contig line with no [ID] key, whose key
    [taxID] ends with the text that the code looks for, contributes
    the value of that key. *)
Lemma taxid_taken_for_id :
  Spec.keys Examples.taxid_line = ["taxID"; "length"] /\
  Spec.has_id_key Examples.taxid_line = false /\
  is_meta Examples.taxid_line = true /\
  line_contigs Examples.taxid_line = ["9606"] /\
  line_contigs Examples.taxid_line <> [].
Proof. repeat split; discriminate. Qed.

End InspectorRules.

(* ================================================================= *)
(** ** The validator: invariants of its reports *)

Module ValidatorMore.
Import Validator ValidatorLines ValidatorFacts.

(** [validate_vcf], branch by branch. *)
Lemma validate_vcf_eq fs p :
  validate_vcf fs p
  = match fs_exists fs (PyPath.str p) with
    | inl exc => inl exc
    | inr false => inr (vcf_violation ("File not found: " ++ p))
    | inr true =>
        match first_line fs p with
        | inr first =>
            if PyStr.startswith first VCF_HEADER
            then inr {| files_checked := 1; valid := 1; invalid := [];
                        warnings := [] |}
            else inr (vcf_violation ("Missing VCF header: " ++ p))
        | inl exc =>
            if is_OSError exc
            then inr (vcf_violation ("Read error: " ++ exn_str exc))
            else inl exc
        end
    end.
Proof.
  unfold validate_vcf, first_line, vcf_violation. cbv zeta.
  destruct (fs_exists fs (PyPath.str p)) as [e0|[]]; cbn [bind];
    [reflexivity | | reflexivity].
  cbn [negb]. cbv iota.
  destruct (String.eqb (PyPath.suffix p) ".gz");
    (destruct (fs_open_text fs _ (PyPath.str p)) as [e|fh]; cbn [bind];
     [reflexivity |];
     destruct (readline fh) as [e|l]; cbn [bind]; [reflexivity |];
     destruct (PyStr.startswith (PyStr.strip l) VCF_HEADER); reflexivity).
Qed.

(** X7.  [validate_vcf] returns a report with [all_valid] if and only
    if the file exists, opens, and its first line, once trimmed, begins
    with [##fileformat=VCF]. *)
Theorem validate_vcf_all_valid_iff fs p :
  (exists r, validate_vcf fs p = inr r /\ all_valid r = true) <->
  (fs_exists fs (PyPath.str p) = inr true /\
   exists first,
     first_line fs p = inr first /\
     PyStr.startswith first VCF_HEADER = true).
Proof.
  rewrite validate_vcf_eq.
  destruct (fs_exists fs (PyPath.str p)) as [e0|[]].
  - split; [intros (r & [=] & _) | intros ([=] & _)].
  - destruct (first_line fs p) as [e|first].
    + split.
      * intros (r & Hr & Hv). destruct (is_OSError e); [| discriminate].
        injection Hr as <-. discriminate.
      * intros (_ & first & [=] & _).
    + destruct (PyStr.startswith first VCF_HEADER) eqn:E; split.
      * intros _. split; [reflexivity |]. now exists first.
      * intros _. eexists. split; reflexivity.
      * intros (r & Hr & Hv). injection Hr as <-. discriminate.
      * intros (_ & f & [= <-] & Hf). congruence.
  - split.
    + intros (r & Hr & Hv). injection Hr as <-. discriminate.
    + intros ([=] & _).
Qed.

Lemma validate_vcf_all_valid_iff_witness :
  exists r,
    validate_vcf MoreExamples.mixed_fs "calls.vcf" = inr r /\
    all_valid r = true.
Proof.
  apply (proj2 (validate_vcf_all_valid_iff MoreExamples.mixed_fs "calls.vcf")).
  split; [reflexivity |].
  exists "##fileformat=VCFv4.2". split; reflexivity.
Defined.

(** X8.  [validate_vcf] raises exactly in two cases: the existence
    check itself raises, or the file exists and opening it or reading
    its first line raises something that is not an [OSError] (the
    [EOFError] or [zlib.error] of a damaged gzip stream, the
    [UnicodeDecodeError] of the decoder).  That exception is the one
    raised; in every other case a report is returned. *)
Theorem validate_vcf_raises_iff fs p e :
  validate_vcf fs p = inl e <->
  fs_exists fs (PyPath.str p) = inl e \/
  (fs_exists fs (PyPath.str p) = inr true /\
   first_line fs p = inl e /\ is_OSError e = false).
Proof.
  rewrite validate_vcf_eq.
  destruct (fs_exists fs (PyPath.str p)) as [e0|[]].
  - split.
    + intros [= ->]. now left.
    + intros [[= ->] | ([=] & _)]. reflexivity.
  - destruct (first_line fs p) as [e'|first].
    + destruct (is_OSError e') eqn:E; split.
      * discriminate.
      * intros [[=] | (_ & [= ->] & He)]. congruence.
      * intros [= ->]. right. now repeat split.
      * intros [[=] | (_ & [= ->] & _)]. reflexivity.
    + destruct (PyStr.startswith first VCF_HEADER); split;
        try discriminate; intros [[=] | (_ & [=] & _)].
  - split; [discriminate | intros [[=] | ([=] & _)]].
Qed.

Lemma validate_vcf_raises_iff_witness :
  validate_vcf MoreExamples.long_name_fs MoreExamples.long_name
  = inl (OSError "[Errno 36] File name too long").
Proof.
  apply (proj2 (validate_vcf_raises_iff MoreExamples.long_name_fs
                  MoreExamples.long_name
                  (OSError "[Errno 36] File name too long"))).
  left. reflexivity.
Defined.

(** X9.  Which violation [validate_vcf] reports: a path whose
    existence check returns [False] is reported as not found, with the
    path as given; for a file that exists, an [OSError] while opening
    or reading the first line is reported as a read error, with the
    text of the exception, and a first line without the signature as a
    missing header.  The three texts cannot be mistaken for one
    another: a violation begins with the prefix of one cause only. *)
Theorem validate_vcf_causes fs p :
  (fs_exists fs (PyPath.str p) = inr false ->
   validate_vcf fs p
   = inr (vcf_violation (cause_prefix NotFound ++ p))) /\
  (forall e,
      fs_exists fs (PyPath.str p) = inr true ->
      first_line fs p = inl e -> is_OSError e = true ->
      validate_vcf fs p
      = inr (vcf_violation (cause_prefix ReadError ++ exn_str e))) /\
  (forall first,
      fs_exists fs (PyPath.str p) = inr true ->
      first_line fs p = inr first ->
      PyStr.startswith first VCF_HEADER = false ->
      validate_vcf fs p
      = inr (vcf_violation (cause_prefix SignatureMismatch ++ p))) /\
  (forall c c' detail,
      PyStr.startswith (cause_prefix c ++ detail) (cause_prefix c') = true ->
      c = c').
Proof.
  rewrite validate_vcf_eq. repeat split.
  - intros ->. reflexivity.
  - intros e -> -> ->. reflexivity.
  - intros first -> -> ->. reflexivity.
  - intros c c' detail H. destruct c, c'; try reflexivity; discriminate H.
Qed.

Lemma validate_vcf_causes_witness :
  validate_vcf MoreExamples.mixed_fs "gone.vcf"
  = inr (vcf_violation "File not found: gone.vcf") /\
  validate_vcf MoreExamples.mixed_fs "locked.vcf"
  = inr (vcf_violation
           "Read error: [Errno 13] Permission denied: 'locked.vcf'") /\
  validate_vcf MoreExamples.mixed_fs "notes.vcf"
  = inr (vcf_violation "Missing VCF header: notes.vcf").
Proof.
  destruct (validate_vcf_causes MoreExamples.mixed_fs "gone.vcf")
    as (H1 & _).
  destruct (validate_vcf_causes MoreExamples.mixed_fs "locked.vcf")
    as (_ & H2 & _).
  destruct (validate_vcf_causes MoreExamples.mixed_fs "notes.vcf")
    as (_ & _ & H3 & _).
  split; [apply H1; reflexivity |].
  split.
  - apply (H2 (OSError "[Errno 13] Permission denied: 'locked.vcf'"));
      reflexivity.
  - apply (H3 "not a vcf file"); reflexivity.
Defined.

(** The reports of the two single checks are accounted for. *)
Lemma validate_vcf_accounted fs p r :
  validate_vcf fs p = inr r -> accounted r /\ files_checked r = 1.
Proof.
  rewrite validate_vcf_eq. unfold accounted, vcf_violation.
  destruct (fs_exists fs (PyPath.str p)) as [e0|[]]; [discriminate | |].
  2:{ intros [= <-]. simpl. repeat split; lia. }
  destruct (first_line fs p) as [e|first].
  - destruct (is_OSError e); [| discriminate].
    intros [= <-]. simpl. repeat split; lia.
  - destruct (PyStr.startswith first VCF_HEADER);
      intros [= <-]; simpl; repeat split; lia.
Qed.

Lemma validate_plink_binary_accounted fs prefix r :
  validate_plink_binary fs prefix = inr r ->
  accounted r /\ files_checked r = 3.
Proof.
  intros H. apply validate_plink_binary_returns in H as (-> & _ & _).
  unfold accounted, plink_report, missing. cbv zeta.
  destruct (present fs (bed_path prefix)),
           (present fs (bim_path prefix)),
           (present fs (fam_path prefix)),
           (has_magic fs (bed_path prefix));
    simpl; repeat split; lia.
Qed.

Lemma validate_one_accounted fs p r :
  validate_one fs p = inr r ->
  accounted r /\
  files_checked r = if is_text_suffix p then 1 else 3.
Proof.
  unfold validate_one, is_text_suffix. cbv zeta.
  destruct (_ || _).
  - apply validate_vcf_accounted.
  - apply validate_plink_binary_accounted.
Qed.

Lemma accounted_absorb a b : accounted a -> accounted b -> accounted (absorb a b).
Proof.
  unfold accounted, absorb. intros (Ha & Ha0 & Haw) (Hb & Hb0 & Hbw). simpl.
  rewrite List.length_app, Haw, Hbw. repeat split; lia.
Qed.

(** A loop that returns ran every check to its report. *)
Lemma validate_batch_loop_returns fs paths :
  forall combined r,
    validate_batch_loop fs paths combined = inr r ->
    exists subs,
      Forall2 (fun p sub => validate_one fs p = inr sub) paths subs /\
      r = absorb combined (aggregate subs).
Proof.
  induction paths as [|p paths IH]; intros combined r H; simpl in H.
  - injection H as <-. exists []. split; [constructor |].
    now rewrite absorb_empty_r.
  - destruct (validate_one fs p) as [e|sub] eqn:E; cbn [bind] in H;
      [discriminate |].
    destruct (IH _ _ H) as (subs & Hsubs & ->).
    exists (sub :: subs). split; [now constructor |].
    now rewrite aggregate_cons, absorb_assoc.
Qed.

Lemma validate_batch_returns fs paths r :
  validate_batch fs paths = inr r ->
  exists subs,
    Forall2 (fun p sub => validate_one fs p = inr sub) paths subs /\
    r = aggregate subs.
Proof.
  unfold validate_batch. cbv zeta. intros H.
  destruct (validate_batch_loop_returns _ _ _ _ H) as (subs & Hs & ->).
  exists subs. split; [exact Hs |]. fold empty_report.
  apply absorb_empty_l.
Qed.

Lemma aggregate_accounted fs paths subs :
  Forall2 (fun p sub => validate_one fs p = inr sub) paths subs ->
  accounted (aggregate subs) /\
  files_checked (aggregate subs)
  = Z.of_nat (length (filter is_text_suffix paths))
    + 3 * Z.of_nat (length (filter (fun p => negb (is_text_suffix p)) paths)).
Proof.
  induction 1 as [|p sub paths subs Hp _ [IHa IHf]].
  - unfold accounted. simpl. repeat split; lia.
  - destruct (validate_one_accounted _ _ _ Hp) as [Ha Hf].
    rewrite aggregate_cons. split; [now apply accounted_absorb |].
    cbn [absorb files_checked]. fold (files_checked (aggregate subs)).
    rewrite IHf, Hf. simpl filter.
    destruct (is_text_suffix p); simpl negb; cbv iota; simpl length; lia.
Qed.

(** X10.  In every report that [validate_vcf], [validate_plink_binary]
    or [validate_batch] returns, each file checked is either valid or
    has one violation: [valid + len(invalid) = files_checked], [valid]
    is not negative and [warnings] is empty.  [files_checked] is 1 for
    a text check, 3 for a fileset check, and for a batch one per path
    with suffix [.vcf] or [.gz] plus three per other path. *)
Theorem reports_account_for_every_file fs :
  (forall p r, validate_vcf fs p = inr r ->
               accounted r /\ files_checked r = 1) /\
  (forall prefix r, validate_plink_binary fs prefix = inr r ->
                    accounted r /\ files_checked r = 3) /\
  (forall paths r,
      validate_batch fs paths = inr r ->
      accounted r /\
      files_checked r
      = Z.of_nat (length (filter is_text_suffix paths))
        + 3 * Z.of_nat
                (length (filter (fun p => negb (is_text_suffix p)) paths))).
Proof.
  split; [| split].
  - intros p r. apply validate_vcf_accounted.
  - intros prefix r. apply validate_plink_binary_accounted.
  - intros paths r H.
    destruct (validate_batch_returns _ _ _ H) as (subs & Hs & ->).
    now apply aggregate_accounted with (fs := fs).
Qed.

Lemma reports_account_for_every_file_witness :
  exists r,
    validate_batch MoreExamples.mixed_fs
      ["calls.vcf"; "gone.vcf"; "study"; "bad"] = inr r /\
    valid r + Z.of_nat (length (invalid r)) = 8 /\ files_checked r = 8.
Proof.
  eexists. split; [reflexivity |].
  destruct (proj2 (proj2 (reports_account_for_every_file
                            MoreExamples.mixed_fs))
              ["calls.vcf"; "gone.vcf"; "study"; "bad"] _ eq_refl)
    as ((Hsum & _ & _) & Hf).
  rewrite Hsum, Hf. split; reflexivity.
Defined.

(** The accumulator of the loop only shifts the result. *)
Lemma validate_batch_loop_acc fs paths :
  forall combined,
    validate_batch_loop fs paths combined
    = match validate_batch_loop fs paths empty_report with
      | inl e => inl e
      | inr r => inr (absorb combined r)
      end.
Proof.
  induction paths as [|p paths IH]; intros combined; simpl.
  - now rewrite absorb_empty_r.
  - destruct (validate_one fs p) as [e|sub]; cbn [bind]; [reflexivity |].
    rewrite (IH (absorb combined sub)), (IH (absorb empty_report sub)).
    destruct (validate_batch_loop fs paths empty_report) as [e|r];
      [reflexivity |].
    now rewrite absorb_empty_l, absorb_assoc.
Qed.

Lemma validate_batch_loop_raises fs paths :
  forall combined e,
    validate_batch_loop fs paths combined = inl e <->
    exists ps p qs,
      paths = (ps ++ p :: qs)%list /\
      Forall (fun q => exists sub, validate_one fs q = inr sub) ps /\
      validate_one fs p = inl e.
Proof.
  induction paths as [|p paths IH]; intros combined e; simpl.
  - split; [discriminate |].
    intros (ps & q & qs & H & _). now destruct ps.
  - destruct (validate_one fs p) as [e'|sub] eqn:E; cbn [bind].
    + split.
      * intros [= ->]. exists [], p, paths. repeat split; [constructor | exact E].
      * intros (ps & q & qs & H & Hps & Hq).
        destruct ps as [|x ps]; simpl in H; injection H as <- _.
        -- congruence.
        -- apply Forall_inv in Hps as [sub' Hsub]. congruence.
    + rewrite IH. split.
      * intros (ps & q & qs & -> & Hps & Hq).
        exists (p :: ps), q, qs. repeat split; [| exact Hq].
        constructor; [now exists sub | exact Hps].
      * intros (ps & q & qs & H & Hps & Hq).
        destruct ps as [|x ps]; simpl in H; injection H as <- ->.
        -- congruence.
        -- exists ps, q, qs. repeat split; [| exact Hq].
           now apply Forall_inv_tail in Hps.
Qed.

(** X11.  A batch stops at the first path whose check raises:
    [validate_batch] raises [e] exactly when the check of some path
    raises [e] and the checks of all paths before it return; the
    reports of those are lost. *)
Theorem validate_batch_raises_first fs paths e :
  validate_batch fs paths = inl e <->
  exists ps p qs,
    paths = (ps ++ p :: qs)%list /\
    Forall (fun q => exists sub, validate_one fs q = inr sub) ps /\
    validate_one fs p = inl e.
Proof. unfold validate_batch. cbv zeta. apply validate_batch_loop_raises. Qed.

Lemma validate_batch_raises_first_witness :
  validate_batch Examples.bed_directory_fs ["calls.vcf"; "study"; "other"]
  = inl (OSError "[Errno 21] Is a directory: 'study.bed'").
Proof.
  apply (proj2 (validate_batch_raises_first Examples.bed_directory_fs
                  ["calls.vcf"; "study"; "other"]
                  (OSError "[Errno 21] Is a directory: 'study.bed'"))).
  exists ["calls.vcf"], "study", ["other"].
  split; [reflexivity |]. split; [| reflexivity].
  constructor; [| constructor]. eexists. reflexivity.
Defined.

(** X12.  The batch of two lists of paths, one after the other, is the
    aggregation of their batches: it raises what the first batch raises,
    else what the second raises, else it returns the sums and the
    concatenations of the two reports. *)
Theorem validate_batch_concat fs ps qs :
  validate_batch fs (ps ++ qs)
  = match validate_batch fs ps with
    | inl e => inl e
    | inr r1 =>
        match validate_batch fs qs with
        | inl e => inl e
        | inr r2 => inr (absorb r1 r2)
        end
    end.
Proof.
  unfold validate_batch. cbv zeta. fold empty_report.
  rewrite validate_batch_loop_app.
  destruct (validate_batch_loop fs ps empty_report) as [e|r1]; cbn [bind];
    [reflexivity |].
  apply validate_batch_loop_acc.
Qed.

Lemma all_valid_aggregate subs :
  all_valid (aggregate subs) = forallb all_valid subs.
Proof.
  induction subs as [|sub subs IH]; [reflexivity |].
  simpl forallb. rewrite <- IH. unfold all_valid, aggregate. simpl invalid.
  rewrite List.length_app.
  destruct (invalid sub); [reflexivity | reflexivity].
Qed.

(** X13.  A batch that returns is [all_valid] if and only if the report
    of every path is. *)
Theorem validate_batch_all_valid_iff fs paths r :
  validate_batch fs paths = inr r ->
  (all_valid r = true <->
   forall p, In p paths ->
             exists sub, validate_one fs p = inr sub /\ all_valid sub = true).
Proof.
  intros H. destruct (validate_batch_returns _ _ _ H) as (subs & Hs & ->).
  rewrite all_valid_aggregate. clear H.
  induction Hs as [|p sub paths subs Hp _ IH].
  - split; [intros _ q [] | reflexivity].
  - simpl forallb. rewrite andb_true_iff, IH. split.
    + intros [Hv Hall] q [<- | Hq]; [now exists sub | now apply Hall].
    + intros Hall. split.
      * destruct (Hall p (or_introl eq_refl)) as (sub' & Hsub' & Hv).
        congruence.
      * intros q Hq. apply Hall. now right.
Qed.

Lemma validate_batch_all_valid_iff_witness :
  exists r,
    validate_batch MoreExamples.mixed_fs ["calls.vcf"; "study"] = inr r /\
    all_valid r = true.
Proof.
  eexists. split; [reflexivity |].
  apply (proj2 (validate_batch_all_valid_iff MoreExamples.mixed_fs
                  ["calls.vcf"; "study"] _ eq_refl)).
  intros p [<- | [<- | []]]; eexists; split; reflexivity.
Defined.

End ValidatorMore.

(* ================================================================= *)
(** ** The converter: counting *)

Module CountFacts.
Import PyStr Inspector InspectorFacts InspectorMore.

(** The counting loop over a handle that never raises. *)
Lemma count_loop_lines lines :
  forall c,
    Converter.count_loop (map inr lines) c
    = inr (c + count (fun l => negb (is_blank l)) lines).
Proof.
  induction lines as [|l lines IH]; intros c; simpl Converter.count_loop.
  - unfold count. simpl. f_equal. lia.
  - rewrite IH, count_cons. unfold is_blank. rewrite negb_involutive.
    destruct (truthy (strip l)); simpl Z.b2z; f_equal; lia.
Qed.

Lemma count_loop_raises pre e rest :
  forall c, Converter.count_loop (map inr pre ++ inl e :: rest)%list c = inl e.
Proof. induction pre as [|l pre IH]; intros c; simpl; [reflexivity | apply IH]. Qed.

Lemma count_loop_grows fh :
  forall c n, Converter.count_loop fh c = inr n -> c <= n.
Proof.
  induction fh as [|[e|l] fh IH]; intros c n H; simpl in H.
  - injection H as <-. lia.
  - discriminate.
  - apply IH in H. destruct (truthy (strip l)); lia.
Qed.

Lemma count_fam_nonneg fs p n : Converter._count_fam_samples fs p = inr n -> 0 <= n.
Proof.
  unfold Converter._count_fam_samples. cbv zeta.
  destruct (fs_exists fs (PyPath.str p)) as [e|[]]; cbn [bind negb];
    cbv iota; [discriminate | | intros [= <-]; lia].
  destruct (fs_open_text fs false (PyPath.str p)) as [e|fh]; cbn [bind];
    [discriminate | apply count_loop_grows].
Qed.

Lemma count_bim_nonneg fs p n : Converter._count_bim_variants fs p = inr n -> 0 <= n.
Proof. apply count_fam_nonneg. Qed.

(** X14.  [_count_fam_samples] and [_count_bim_variants] are the same
    count.  A path whose existence check returns [False] counts [0] and
    is not opened; a file that is read to its end counts its non-blank
    lines, a number between [0] and the number of lines; an exception of
    the existence check, of the open or of a read is raised to the
    caller. *)
Theorem count_nonblank_lines fs p :
  Converter._count_bim_variants fs p = Converter._count_fam_samples fs p /\
  (fs_exists fs (PyPath.str p) = inr false ->
   Converter._count_fam_samples fs p = inr 0) /\
  (forall lines,
      fs_exists fs (PyPath.str p) = inr true ->
      fs_open_text fs false (PyPath.str p) = inr (map inr lines) ->
      Converter._count_fam_samples fs p
      = inr (count (fun l => negb (is_blank l)) lines) /\
      0 <= count (fun l => negb (is_blank l)) lines
        <= Z.of_nat (length lines)) /\
  (forall e,
      fs_exists fs (PyPath.str p) = inl e ->
      Converter._count_fam_samples fs p = inl e) /\
  (forall e,
      fs_exists fs (PyPath.str p) = inr true ->
      fs_open_text fs false (PyPath.str p) = inl e ->
      Converter._count_fam_samples fs p = inl e) /\
  (forall pre e rest,
      fs_exists fs (PyPath.str p) = inr true ->
      fs_open_text fs false (PyPath.str p)
      = inr (map inr pre ++ inl e :: rest)%list ->
      Converter._count_fam_samples fs p = inl e).
Proof.
  split; [reflexivity |].
  unfold Converter._count_fam_samples. cbv zeta.
  split; [intros ->; reflexivity |]. split; [| split; [| split]].
  - intros lines -> ->. cbn [negb bind]. cbv iota.
    rewrite count_loop_lines. split; [f_equal; lia |].
    unfold count.
    pose proof (filter_length_le (fun l => negb (is_blank l)) lines). lia.
  - intros e ->. reflexivity.
  - intros e -> ->. reflexivity.
  - intros pre e rest -> ->. cbn [negb bind]. cbv iota.
    apply count_loop_raises.
Qed.

Lemma count_nonblank_lines_witness :
  Converter._count_fam_samples MoreExamples.after_plink "out.fam" = inr 2 /\
  Converter._count_fam_samples MoreExamples.after_plink "out.log" = inr 0 /\
  Converter._count_fam_samples MoreExamples.long_name_fs MoreExamples.long_name
  = inl (OSError "[Errno 36] File name too long").
Proof.
  destruct (count_nonblank_lines MoreExamples.after_plink "out.fam")
    as (_ & _ & Hread & _).
  destruct (count_nonblank_lines MoreExamples.after_plink "out.log")
    as (_ & Hmissing & _).
  destruct (count_nonblank_lines MoreExamples.long_name_fs
              MoreExamples.long_name)
    as (_ & _ & _ & Hraises & _).
  split; [| split].
  - apply (proj1 (Hread (lines MoreExamples.two_samples) eq_refl eq_refl)).
  - apply Hmissing. reflexivity.
  - apply Hraises. reflexivity.
Defined.

(** X15.  The counting functions and [inspect] agree on what a line
    is: for a file that is not opened through gzip, the count of
    [_count_bim_variants] is [header_line_count + variant_count] of
    [inspect]. *)
Theorem count_agrees_with_inspect fs p lines :
  fs_exists fs (PyPath.str p) = inr true ->
  opens_gz p = false ->
  fs_open_text fs false (PyPath.str p) = inr (map inr lines) ->
  exists r n,
    inspect fs p = inr r /\ Converter._count_bim_variants fs p = inr n /\
    n = header_line_count r + variant_count r.
Proof.
  intros Hex Hgz Hopen.
  exists (inspect_lines p lines), (count (fun l => negb (is_blank l)) lines).
  split; [apply inspect_returns; now rewrite Hgz |].
  split.
  - unfold Converter._count_bim_variants. cbv zeta. rewrite Hex, Hopen.
    cbn [negb bind]. cbv iota. rewrite count_loop_lines. f_equal; lia.
  - unfold inspect_lines.
    rewrite fold_header_line_count, fold_variant_count. simpl.
    pose proof (count_classes lines). lia.
Qed.

Lemma count_agrees_with_inspect_witness :
  exists r n,
    inspect (Examples.text_fs Examples.basic) "calls.vcf" = inr r /\
    Converter._count_bim_variants (Examples.text_fs Examples.basic) "calls.vcf" = inr n /\
    n = 7 /\ header_line_count r + variant_count r = 7.
Proof.
  destruct (count_agrees_with_inspect
              (Examples.text_fs Examples.basic) "calls.vcf"
              (lines Examples.basic) eq_refl eq_refl eq_refl)
    as (r & n & Hr & Hn & E).
  exists r, n. split; [exact Hr |]. split; [exact Hn |].
  rewrite <- E. injection Hn as <-. split; reflexivity.
Defined.

End CountFacts.

(* ================================================================= *)
(** ** The converter: conversions *)

Module ConverterFacts.
Import Converter CountFacts.

(** The command lines: the fixed words, then the extra arguments; no
    extra arguments and an empty list of them are the same. *)
Lemma build_vcf_to_plink_cmd_eq self vcf out extra :
  _build_vcf_to_plink_cmd self vcf out extra
  = ([plink_binary self; "--vcf"; vcf; "--make-bed"; "--out"; out;
      "--allow-extra-chr"] ++ extras extra)%list.
Proof. destruct extra as [[|x l]|]; reflexivity. Qed.

Lemma build_plink_to_vcf_cmd_eq self prefix out extra :
  _build_plink_to_vcf_cmd self prefix out extra
  = ([plink_binary self; "--bfile"; prefix; "--recode"; "vcf"; "--out"; out;
      "--allow-extra-chr"] ++ extras extra)%list.
Proof. destruct extra as [[|x l]|]; reflexivity. Qed.

(** X16.  [vcf_to_plink] runs PLINK on the fixed words followed by the
    extra arguments.  A non-zero exit status or a missing program gives
    a result with [success = False], the text of the exception and both
    counts [0]; any other exception of the subprocess is raised.  When
    the run completes and both output files are counted, the result has
    [success = True], no message and the two counts.  A result that is
    returned has [success = True] exactly when the run completed, its
    counts are not negative and its paths are the arguments. *)
Theorem vcf_to_plink_outcomes w self fs vcf out extra :
  let cmd :=
    ([plink_binary self; "--vcf"; vcf; "--make-bed"; "--out"; out;
      "--allow-extra-chr"] ++ extras extra)%list in
  let result n m ok msg :=
    {| input_path := vcf; output_prefix := out; input_format := "vcf";
       output_format := "plink_binary"; sample_count := n;
       variant_count := m; success := ok; message := msg |} in
  (forall msg,
      run w cmd fs = inl (CalledProcessError msg) \/
      run w cmd fs = inl (FileNotFoundError msg) ->
      vcf_to_plink w self fs vcf out extra = inr (result 0 0 false msg)) /\
  (forall msg,
      run w cmd fs = inl (OtherRunError msg) ->
      vcf_to_plink w self fs vcf out extra = inl (RunExn (OtherRunError msg))) /\
  (forall fs' n m,
      run w cmd fs = inr fs' ->
      _count_fam_samples fs' (out ++ ".fam") = inr n ->
      _count_bim_variants fs' (out ++ ".bim") = inr m ->
      vcf_to_plink w self fs vcf out extra = inr (result n m true "")) /\
  (forall r,
      vcf_to_plink w self fs vcf out extra = inr r ->
      (success r = true <-> exists fs', run w cmd fs = inr fs') /\
      0 <= sample_count r /\ 0 <= variant_count r /\
      input_path r = vcf /\ output_prefix r = out).
Proof.
  cbv zeta. unfold vcf_to_plink. cbv zeta.
  rewrite build_vcf_to_plink_cmd_eq.
  split; [| split; [| split]].
  - intros msg [-> | ->]; reflexivity.
  - intros msg ->. reflexivity.
  - intros fs' n m -> -> ->. reflexivity.
  - intros r.
    destruct (run w _ fs) as [e|fs'].
    + unfold handle_exc.
      destruct (caught w (RunExn e)); [| discriminate].
      intros [= <-]. simpl. repeat split; try lia; try discriminate.
      intros (fs' & [=]).
    + destruct (_count_fam_samples fs' (out ++ ".fam")) as [e|n] eqn:En.
      * unfold handle_exc.
        destruct (caught w (FileExn e)); [| discriminate].
        intros [= <-]. simpl. repeat split; try lia. now exists fs'.
      * pose proof (count_fam_nonneg _ _ _ En) as Hn.
        destruct (_count_bim_variants fs' (out ++ ".bim")) as [e|m] eqn:Em.
        -- unfold handle_exc.
           destruct (caught w (FileExn e)); [| discriminate].
           intros [= <-]. simpl. repeat split; try lia. now exists fs'.
        -- pose proof (count_bim_nonneg _ _ _ Em) as Hm.
           intros [= <-]. simpl. repeat split; try lia. now exists fs'.
Qed.

Lemma vcf_to_plink_outcomes_witness :
  vcf_to_plink MoreExamples.plink_works MoreExamples.default_converter
    MoreExamples.after_plink "calls.vcf" "out" (Some ["--maf"; "0.01"])
  = inr {| input_path := "calls.vcf"; output_prefix := "out";
           input_format := "vcf"; output_format := "plink_binary";
           sample_count := 2; variant_count := 3;
           success := true; message := "" |} /\
  vcf_to_plink MoreExamples.plink_fails MoreExamples.default_converter
    MoreExamples.after_plink "calls.vcf" "out" None
  = inr {| input_path := "calls.vcf"; output_prefix := "out";
           input_format := "vcf"; output_format := "plink_binary";
           sample_count := 0; variant_count := 0; success := false;
           message := "Command 'plink' returned non-zero exit status 2." |}.
Proof.
  split.
  - apply (proj1 (proj2 (proj2
      (vcf_to_plink_outcomes MoreExamples.plink_works
         MoreExamples.default_converter MoreExamples.after_plink
         "calls.vcf" "out" (Some ["--maf"; "0.01"]))))
      MoreExamples.after_plink 2 3); reflexivity.
  - apply (proj1
      (vcf_to_plink_outcomes MoreExamples.plink_fails
         MoreExamples.default_converter MoreExamples.after_plink
         "calls.vcf" "out" None)).
    left. reflexivity.
Defined.

(** X17.  [plink_to_vcf] runs PLINK on the fixed words followed by the
    extra arguments and counts nothing: a result that is returned has
    both counts [0]; it has [success = True] and no message exactly when
    the run completed, and [success = False] with the text of the
    exception after a non-zero exit status or a missing program.  Any
    other exception of the subprocess is raised. *)
Theorem plink_to_vcf_outcomes w self fs prefix out extra :
  let cmd :=
    ([plink_binary self; "--bfile"; prefix; "--recode"; "vcf"; "--out"; out;
      "--allow-extra-chr"] ++ extras extra)%list in
  let result ok msg :=
    {| input_path := prefix; output_prefix := out;
       input_format := "plink_binary"; output_format := "vcf";
       sample_count := 0; variant_count := 0; success := ok;
       message := msg |} in
  (forall fs',
      run w cmd fs = inr fs' ->
      plink_to_vcf w self fs prefix out extra = inr (result true "")) /\
  (forall msg,
      run w cmd fs = inl (CalledProcessError msg) \/
      run w cmd fs = inl (FileNotFoundError msg) ->
      plink_to_vcf w self fs prefix out extra = inr (result false msg)) /\
  (forall msg,
      run w cmd fs = inl (OtherRunError msg) ->
      plink_to_vcf w self fs prefix out extra
      = inl (RunExn (OtherRunError msg))) /\
  (forall r,
      plink_to_vcf w self fs prefix out extra = inr r ->
      sample_count r = 0 /\ variant_count r = 0 /\
      (success r = true <-> exists fs', run w cmd fs = inr fs') /\
      (success r = true -> message r = "")).
Proof.
  cbv zeta. unfold plink_to_vcf. cbv zeta.
  rewrite build_plink_to_vcf_cmd_eq.
  split; [| split; [| split]].
  - intros fs' ->. reflexivity.
  - intros msg [-> | ->]; reflexivity.
  - intros msg ->. reflexivity.
  - intros r. destruct (run w _ fs) as [e|fs'].
    + unfold handle_exc.
      destruct (caught w (RunExn e)); [| discriminate].
      intros [= <-]. simpl. repeat split; try discriminate.
      intros (fs' & [=]).
    + intros [= <-]. simpl. repeat split. now exists fs'.
Qed.

Lemma plink_to_vcf_outcomes_witness :
  plink_to_vcf MoreExamples.plink_fails MoreExamples.default_converter
    MoreExamples.after_plink "study" "out" None
  = inr {| input_path := "study"; output_prefix := "out";
           input_format := "plink_binary"; output_format := "vcf";
           sample_count := 0; variant_count := 0; success := false;
           message := "Command 'plink' returned non-zero exit status 2." |}.
Proof.
  apply (proj1 (proj2
    (plink_to_vcf_outcomes MoreExamples.plink_fails
       MoreExamples.default_converter MoreExamples.after_plink
       "study" "out" None))).
  left. reflexivity.
Defined.

End ConverterFacts.
